(** * ease-car-server: the data layer of the car-rental application

    A shallow embedding of [core/api/models.py] (the entities Brand, Car,
    Rental, Review, Favorite, Payment and Booking with their [save] and
    [__str__] methods) and of the schema migration
    [api/migrations/0010_alter_rental_created_at_alter_review_created_at_and_more.py].

    The Python library calls the models rely on are embedded next to them:
    [hashlib.sha256] and [uuid.uuid4] in full, [timezone.now] and
    [os.urandom] as reads of an explicit world, and the object-relational
    mapper's [Model.save], [auto_now], [ForeignKey(on_delete=CASCADE)] and
    [Model.delete] over an explicit table of rows.

    [Model.save] is embedded for a call without arguments whose write the
    database accepts. What is stated of a save and has to hold as well when
    the database refuses the write is stated of the instance, which every
    [save] method assigns before it calls the base class, or of the rows
    the save leaves alone. *)

From Stdlib Require Import ZArith List String Ascii Bool Lia Arith DecimalString.
Import ListNotations.
Local Open Scope string_scope.
Local Open Scope list_scope.
Local Open Scope Z_scope.

(** ** Byte strings

    A Python [bytes] object is a list of integers, each in [0, 256). *)

Definition bytes := list Z.

(** [int.from_bytes(bs, 'big')] *)
Definition int_from_bytes (bs : bytes) : Z :=
  fold_left (fun acc b => acc * 256 + b) bs 0.

(** [n.to_bytes(len, 'big')], for [0 <= n < 256 ^ len] *)
Fixpoint int_to_bytes (len : nat) (n : Z) : bytes :=
  match len with
  | O => []
  | S len' => int_to_bytes len' (n / 256) ++ [n mod 256]
  end.

(** [s.encode('ascii')] *)
Definition ord (s : string) : bytes :=
  map (fun ch => Z.of_nat (nat_of_ascii ch)) (list_ascii_of_string s).

(** ** hashlib.sha256 (FIPS 180-4) *)

Module SHA256.

Definition word (x : Z) : Z := x mod 2 ^ 32.

Definition add32 (a b : Z) : Z := word (a + b).

Definition rotr (n x : Z) : Z :=
  word (Z.lor (Z.shiftr x n) (Z.shiftl x (32 - n))).

Definition shr (n x : Z) : Z := Z.shiftr x n.

Definition not32 (x : Z) : Z := Z.lxor x 0xffffffff.

Definition Ch (x y z : Z) : Z :=
  Z.lxor (Z.land x y) (Z.land (not32 x) z).

Definition Maj (x y z : Z) : Z :=
  Z.lxor (Z.lxor (Z.land x y) (Z.land x z)) (Z.land y z).

Definition Sigma0 (x : Z) : Z := Z.lxor (Z.lxor (rotr 2 x) (rotr 13 x)) (rotr 22 x).
Definition Sigma1 (x : Z) : Z := Z.lxor (Z.lxor (rotr 6 x) (rotr 11 x)) (rotr 25 x).
Definition sigma0 (x : Z) : Z := Z.lxor (Z.lxor (rotr 7 x) (rotr 18 x)) (shr 3 x).
Definition sigma1 (x : Z) : Z := Z.lxor (Z.lxor (rotr 17 x) (rotr 19 x)) (shr 10 x).

(** The constants of the standard are the first 32 bits of the fractional
    parts of roots of the first primes: cube roots of the first 64 for the
    round constants, square roots of the first 8 for the initial hash. *)
Definition primes : list Z :=
  [ 2; 3; 5; 7; 11; 13; 17; 19; 23; 29; 31; 37; 41; 43; 47; 53; 59; 61; 67; 71;
    73; 79; 83; 89; 97; 101; 103; 107; 109; 113; 127; 131; 137; 139; 149; 151;
    157; 163; 167; 173; 179; 181; 191; 193; 197; 199; 211; 223; 227; 229; 233;
    239; 241; 251; 257; 263; 269; 271; 277; 281; 283; 293; 307; 311 ].

(** The largest [r] below [2 ^ bits] with [r ^ k <= n], bit by bit. *)
Fixpoint iroot (k : Z) (bits : nat) (n r : Z) : Z :=
  match bits with
  | O => r
  | S bits' =>
      let r' := r + 2 ^ Z.of_nat bits' in
      iroot k bits' n (if r' ^ k <=? n then r' else r)
  end.

Definition root_fraction (k p : Z) : Z :=
  word (iroot k 40 (p * 2 ^ (32 * k)) 0).

Definition K : list Z := map (root_fraction 3) primes.

(** The eight working variables, also the intermediate hash value. *)
Record state := mkState { a : Z; b : Z; c : Z; d : Z; e : Z; f : Z; g : Z; h : Z }.

Definition H0 : state :=
  let r := fun i => root_fraction 2 (nth i primes 0) in
  mkState (r 0%nat) (r 1%nat) (r 2%nat) (r 3%nat)
          (r 4%nat) (r 5%nat) (r 6%nat) (r 7%nat).

(** Padding: a 1 bit, zeros up to 448 mod 512 bits, the bit length on 64 bits. *)
Definition pad (msg : bytes) : bytes :=
  let len := Z.of_nat (List.length msg) in
  msg ++ [0x80] ++ repeat 0 (Z.to_nat ((55 - len) mod 64))
      ++ int_to_bytes 8 ((8 * len) mod 2 ^ 64).

(** Big-endian 32-bit words of a byte string. *)
Fixpoint words (n : nat) (bs : bytes) : list Z :=
  match n with
  | O => []
  | S n' => int_from_bytes (firstn 4 bs) :: words n' (skipn 4 bs)
  end.

(** Message schedule, most recent word first: [ws] holds W[t-1], W[t-2], ... *)
Fixpoint schedule (n : nat) (ws : list Z) : list Z :=
  match n with
  | O => ws
  | S n' =>
      let w := add32 (add32 (sigma1 (nth 1 ws 0)) (nth 6 ws 0))
                     (add32 (sigma0 (nth 14 ws 0)) (nth 15 ws 0)) in
      schedule n' (w :: ws)
  end.

Definition round (s : state) (kw : Z * Z) : state :=
  let (k, w) := kw in
  let T1 := add32 (add32 (add32 (h s) (Sigma1 (e s))) (add32 (Ch (e s) (f s) (g s)) k)) w in
  let T2 := add32 (Sigma0 (a s)) (Maj (a s) (b s) (c s)) in
  mkState (add32 T1 T2) (a s) (b s) (c s) (add32 (d s) T1) (e s) (f s) (g s).

Definition compress (hv : state) (block : bytes) : state :=
  let W := rev (schedule 48 (rev (words 16 block))) in
  let s := fold_left round (combine K W) hv in
  mkState (add32 (a hv) (a s)) (add32 (b hv) (b s)) (add32 (c hv) (c s))
          (add32 (d hv) (d s)) (add32 (e hv) (e s)) (add32 (f hv) (f s))
          (add32 (g hv) (g s)) (add32 (h hv) (h s)).

(** The 64-byte blocks of the padded message, in order. *)
Fixpoint blocks (n : nat) (hv : state) (bs : bytes) : state :=
  match n with
  | O => hv
  | S n' => blocks n' (compress hv (firstn 64 bs)) (skipn 64 bs)
  end.

(** [hashlib.sha256(msg).digest()] *)
Definition digest (msg : bytes) : bytes :=
  let p := pad msg in
  let s := blocks (List.length p / 64) H0 p in
  flat_map (int_to_bytes 4) [a s; b s; c s; d s; e s; f s; g s; h s].

Definition hex_digit (n : Z) : ascii :=
  match String.get (Z.to_nat n) "0123456789abcdef" with
  | Some ch => ch
  | None => "?"%char
  end.

Fixpoint hex (bs : bytes) : string :=
  match bs with
  | [] => EmptyString
  | x :: bs' => String (hex_digit (x / 16)) (String (hex_digit (x mod 16)) (hex bs'))
  end.

(** [hashlib.sha256(msg).hexdigest()] *)
Definition hexdigest (msg : bytes) : string := hex (digest msg).

End SHA256.

(** ** Values and rows *)

(** What a column holds. A datetime is a number of microseconds since the
    epoch, a decimal a number of hundredths. *)
Inductive Value :=
| V_None
| V_Bool (b : bool)
| V_Int (n : Z)
| V_Decimal (hundredths : Z)
| V_Str (s : string)
| V_DateTime (t : Z).

Definition Value_eqb (x y : Value) : bool :=
  match x, y with
  | V_None, V_None => true
  | V_Bool a, V_Bool b => Bool.eqb a b
  | V_Int a, V_Int b => a =? b
  | V_Decimal a, V_Decimal b => a =? b
  | V_Str a, V_Str b => String.eqb a b
  | V_DateTime a, V_DateTime b => a =? b
  | _, _ => false
  end.

(** A stored row: the model it belongs to, its primary key and its columns
    (a foreign key [f] is stored in the column [f_id]). *)
Record Row := mkRow {
  row_model : string;
  row_pk : Value;
  row_columns : list (string * Value) }.

Definition Database := list Row.

(** ** The world a request runs in

    [clock] is what the successive calls of [timezone.now] return and
    [ticks] counts the calls so far; [entropy] is the stream of bytes
    behind [os.urandom] and [drawn] counts the bytes taken so far; [rows]
    is the database. *)

Record World := mkWorld {
  clock : nat -> Z;
  ticks : nat;
  entropy : nat -> Z;
  drawn : nat;
  rows : Database }.

Definition M (A : Type) : Type := World -> A * World.

Definition ret {A} (x : A) : M A := fun w => (x, w).

Definition bind {A B} (m : M A) (k : A -> M B) : M B :=
  fun w => let (x, w') := m w in k x w'.

Notation "x <- m ;; k" := (bind m (fun x => k))
  (at level 61, m at next level, right associativity).

(** [django.utils.timezone.now()] *)
Definition timezone_now : M Z :=
  fun w => (clock w (ticks w),
            mkWorld (clock w) (S (ticks w)) (entropy w) (drawn w) (rows w)).

(** [os.urandom(n)] *)
Definition os_urandom (n : nat) : M bytes :=
  fun w => (map (fun i => entropy w i mod 256) (seq (drawn w) n),
            mkWorld (clock w) (ticks w) (entropy w) (drawn w + n) (rows w)).

Definition get_rows : M Database := fun w => (rows w, w).

Definition put_rows (db : Database) : M unit :=
  fun w => (tt, mkWorld (clock w) (ticks w) (entropy w) (drawn w) db).

(** ** uuid.uuid4 *)

Module uuid.

(** [UUID(bytes=bs, version=version).int]: the variant bits are set to
    RFC 4122 and the version number is written over bits 76 to 79. *)
Definition UUID (bs : bytes) (version : Z) : Z :=
  let int := int_from_bytes bs in
  let int := Z.land int (Z.lnot (Z.shiftl 0xc000 48)) in
  let int := Z.lor int (Z.shiftl 0x8000 48) in
  let int := Z.land int (Z.lnot (Z.shiftl 0xf000 64)) in
  let int := Z.lor int (Z.shiftl version 76) in
  int.

(** [u.bytes] *)
Definition bytes_ (u : Z) : bytes := int_to_bytes 16 u.

Definition uuid4 : M Z :=
  bs <- os_urandom 16 ;;
  ret (UUID bs 4).

End uuid.

(** ** The object-relational mapper

    What the models take from [django.db.models]: rows and their keys,
    foreign keys with their [on_delete] rule, [Model.save] with the
    [auto_now] fields, [Model.delete] with its cascade, and attribute
    access on an instance. *)

(** The [on_delete] rules; every foreign key of the module is declared
    with [CASCADE]. *)
Inductive OnDelete := CASCADE | DO_NOTHING.

Definition OnDelete_eqb (x y : OnDelete) : bool :=
  match x, y with
  | CASCADE, CASCADE | DO_NOTHING, DO_NOTHING => true
  | _, _ => false
  end.

(** [fk_field = models.ForeignKey(fk_to, on_delete=fk_on_delete)] in the
    class of the model [fk_model]. *)
Record ForeignKey := mkFK {
  fk_model : string;
  fk_field : string;
  fk_to : string;
  fk_on_delete : OnDelete }.

(** The column of a foreign key field. *)
Definition attname (field : string) : string := String.append field "_id".

Fixpoint column (name : string) (cols : list (string * Value)) : option Value :=
  match cols with
  | [] => None
  | (k, v) :: cols' => if String.eqb k name then Some v else column name cols'
  end.

(** [r] is the row of [model] with the primary key [key]. *)
Definition has_key (model : string) (key : Value) (r : Row) : bool :=
  String.eqb (row_model r) model && Value_eqb (row_pk r) key.

(** Two rows are the same record when model and primary key agree. *)
Definition same_record (r1 r2 : Row) : bool :=
  has_key (row_model r1) (row_pk r1) r2.

(** [Model.objects.get(pk=key)] *)
Definition fetch (db : Database) (model : string) (key : Value) : option Row :=
  find (has_key model key) db.

(** *** Saving *)

(** What [Model.save] needs to know of a model class. *)
Class Model (T : Type) := {
  to_row : T -> Row;
  (** the value of the primary key, [None] while an automatic [id] is unset *)
  pk_val : T -> option Value;
  (** store the [id] an INSERT returns *)
  set_auto_id : Z -> T -> T;
  (** assign the field declared with [auto_now=True], when there is one *)
  auto_now : option (Z -> T -> T) }.

(** [Field.pre_save]: a field with [auto_now=True] takes the current time,
    every other field keeps the value of the instance. *)
Definition pre_save {T} `{Model T} (self : T) : M T :=
  match auto_now with
  | Some set => value <- timezone_now ;; ret (set value self)
  | None => ret self
  end.

(** UPDATE ... WHERE pk = ...; answers whether a row was found. *)
Definition db_update (r : Row) : M bool :=
  db <- get_rows ;;
  if existsb (same_record r) db
  then _ <- put_rows (map (fun r' => if same_record r r' then r else r') db) ;; ret true
  else ret false.

(** INSERT of a row the database accepts. A row that breaks a constraint
    of the table (a key in use, a reference to no row) makes the statement
    raise [IntegrityError]; such a row is outside this model. *)
Definition db_insert (r : Row) : M unit :=
  db <- get_rows ;;
  put_rows (db ++ [r]).

(** The largest [id] in use in the table of [model], from [acc] on. *)
Definition max_id (model : string) (acc : Z) (r : Row) : Z :=
  if String.eqb (row_model r) model
  then match row_pk r with V_Int n => Z.max acc n | _ => acc end
  else acc.

(** A value for the automatic [id] of a new row: one above every [id] in
    use in the table. The database takes it from a sequence of its own,
    which is not part of the rows; all the statements rely on is that the
    value is not in use, [next_id_fresh]. *)
Definition next_id (model : string) : M Z :=
  db <- get_rows ;;
  ret (1 + fold_left (max_id model) db 0).

(** [models.Model.save(self)] with no arguments, where the database accepts
    what is written: when the primary key is set an UPDATE is tried first
    and an INSERT follows if it touched no row; without a key the row is
    inserted and receives its [id]. Both statements take their values
    through [pre_save]. A write the database refuses raises and leaves the
    rows as they were; the instance then still holds what the [save] of
    its class assigned before this call. The options [force_insert],
    [force_update] and [update_fields] are not modelled. *)
Definition Model_save {T} `{Model T} (self : T) : M T :=
  match pk_val self with
  | Some _ =>
      self <- pre_save self ;;
      updated <- db_update (to_row self) ;;
      if updated : bool then ret self
      else
        self <- pre_save self ;;
        _ <- db_insert (to_row self) ;;
        ret self
  | None =>
      self <- pre_save self ;;
      id <- next_id (row_model (to_row self)) ;;
      let self := set_auto_id id self in
      _ <- db_insert (to_row self) ;;
      ret self
  end.

(** *** Deleting *)

(** [child] holds a foreign key of the schema that points at [parent] and
    is declared with [on_delete=CASCADE]. *)
Definition cascades_from (schema : list ForeignKey) (parent child : Row) : bool :=
  existsb (fun fk =>
             String.eqb (fk_model fk) (row_model child)
             && String.eqb (fk_to fk) (row_model parent)
             && OnDelete_eqb (fk_on_delete fk) CASCADE
             && match column (attname (fk_field fk)) (row_columns child) with
                | Some key => Value_eqb key (row_pk parent)
                | None => false
                end) schema.

(** One pass of the collector: the rows not collected yet that refer to a
    collected row are collected too. *)
Definition added (schema : list ForeignKey) (db : Database)
    (collected : list Row) : list Row :=
  filter (fun r => negb (existsb (same_record r) collected)
                   && existsb (fun parent => cascades_from schema parent r) collected) db.

Definition collect_related (schema : list ForeignKey) (db : Database)
    (collected : list Row) : list Row :=
  collected ++ added schema db collected.

Fixpoint collect (passes : nat) (schema : list ForeignKey) (db : Database)
    (collected : list Row) : list Row :=
  match passes with
  | O => collected
  | S passes' => collect passes' schema db (collect_related schema db collected)
  end.

(** [obj.delete()]: the object and everything that refers to it through
    cascading foreign keys, directly or not, leaves the database. A pass can
    only add rows of the database, so as many passes as there are rows
    reach them all. *)
Definition Model_delete (schema : list ForeignKey) (obj : Row) : M unit :=
  db <- get_rows ;;
  let doomed := collect (List.length db) schema db [obj] in
  put_rows (filter (fun r => negb (existsb (same_record r) doomed)) db).

(** *** Attribute access and string conversion *)

Inductive Exception :=
| AttributeError (class_name attribute : string)
| DoesNotExist (model : string)
| TypeError.

Inductive Result (A : Type) :=
| Ok (x : A)
| Raise (e : Exception).
Arguments Ok {A} x.
Arguments Raise {A} e.

Definition and_then {A B} (m : Result A) (k : A -> Result B) : Result B :=
  match m with
  | Ok x => k x
  | Raise e => Raise e
  end.

Notation "x <-- m ;; k" := (and_then m (fun x => k))
  (at level 61, m at next level, right associativity).

(** What an attribute of an instance evaluates to: a plain value, or the
    related object a foreign key descriptor fetches. An object of a model
    defined outside this module is known by its key only. *)
Inductive Attr :=
| A_Value (v : Value)
| A_Object (r : Row)
| A_Foreign (model : string) (key : Value).

(** The models this module defines; [ProfileUser] and [Address] come from
    [core.authentication.models]. *)
Definition local_models : list string :=
  ["brand"; "car"; "rental"; "review"; "favorite"; "payment"; "booking"].

(** [getattr(self, name)] for an instance [self] of the class [class_name]
    whose foreign keys are [fks]: the columns of the row, [pk], and one
    descriptor per foreign key; any other name raises [AttributeError]. *)
Definition getattr (class_name : string) (fks : list ForeignKey) (db : Database)
    (self : Row) (name : string) : Result Attr :=
  match column name (row_columns self) with
  | Some v => Ok (A_Value v)
  | None =>
      if String.eqb name "pk" then Ok (A_Value (row_pk self))
      else
        match find (fun fk => String.eqb (fk_field fk) name) fks with
        | Some fk =>
            match column (attname name) (row_columns self) with
            | Some key =>
                if existsb (String.eqb (fk_to fk)) local_models
                then match fetch db (fk_to fk) key with
                     | Some r => Ok (A_Object r)
                     | None => Raise (DoesNotExist (fk_to fk))
                     end
                else Ok (A_Foreign (fk_to fk) key)
            | None => Raise (AttributeError class_name name)
            end
        | None => Raise (AttributeError class_name name)
        end
  end.

(** What [__str__] needs from outside the module: the string conversion of
    the models of [core.authentication.models] and of a datetime. *)
Record Externals := mkExternals {
  foreign_str : string -> Value -> Result string;
  datetime_str : Z -> string }.

(** [str(v)] for a plain value. *)
Definition str_value (ext : Externals) (v : Value) : string :=
  match v with
  | V_None => "None"
  | V_Bool true => "True"
  | V_Bool false => "False"
  | V_Int n => NilZero.string_of_int (Z.to_int n)
  | V_Decimal n =>
      let digits := NilZero.string_of_int (Z.to_int (Z.abs n mod 100)) in
      String.append (if n <? 0 then "-" else "")
        (String.append (NilZero.string_of_int (Z.to_int (Z.abs n / 100)))
           (String.append (if Z.abs n mod 100 <? 10 then ".0" else ".") digits))
  | V_Str s => s
  | V_DateTime t => datetime_str ext t
  end.

(** [format(x)] inside an f-string, [method] being the [__str__] of the
    class of a related object of this module. *)
Definition format (ext : Externals) (method : Row -> Result string) (x : Attr)
    : Result string :=
  match x with
  | A_Value v => Ok (str_value ext v)
  | A_Object r => method r
  | A_Foreign model key => foreign_str ext model key
  end.

(** The [method] to pass to [format] for an attribute that is not an object
    of this module (a plain value, or a user or an address): such an
    attribute never reaches it. *)
Definition no_method (r : Row) : Result string := Raise TypeError.

(** [x.name], for an attribute [x] that holds an object of this module. *)
Definition getattr_of (class_name : string) (fks : list ForeignKey) (db : Database)
    (x : Attr) (name : string) : Result Attr :=
  match x with
  | A_Object r => getattr class_name fks db r name
  | _ => Raise (AttributeError class_name name)
  end.

(** A [str] operand or result: anything else is a [TypeError]. *)
Definition as_str (x : Attr) : Result string :=
  match x with
  | A_Value (V_Str s) => Ok s
  | _ => Raise TypeError
  end.

Definition option_value {A} (inj : A -> Value) (x : option A) : Value :=
  match x with
  | Some v => inj v
  | None => V_None
  end.

(** Python's truth value of a string: the empty string is false. *)
Definition truthy (s : string) : bool :=
  match s with
  | EmptyString => false
  | String _ _ => true
  end.

(** ** The entities of [core/api/models.py]

    A foreign key holds the key of the row it refers to ([brand_id] for the
    field [brand]); the implicit [id] of a model is [None] until the row is
    inserted; a field with [auto_now=True] is [None] until the first save. *)

Module Brand.
Record t := mk { id : option Z; name : string; image : string }.

Definition foreign_keys : list ForeignKey := [].

Definition to_row_ (self : t) : Row :=
  mkRow "brand" (option_value V_Int (id self))
    [ ("id", option_value V_Int (id self));
      ("name", V_Str (name self));
      ("image", V_Str (image self)) ].

#[global] Instance Brand_Model : Model t := {
  to_row := to_row_;
  pk_val self := option_map V_Int (id self);
  set_auto_id v self := mk (Some v) (name self) (image self);
  auto_now := None }.

Definition __str__ (db : Database) (self : Row) : Result string :=
  name <-- getattr "Brand" foreign_keys db self "name" ;;
  as_str name.
End Brand.

Module Car.
Inductive FuelTypes := GASOLINE | DIESEL | PROPANE | CNG | ETHANOL | BIODIESEL.

Definition FuelTypes_value (x : FuelTypes) : string :=
  match x with
  | GASOLINE => "Gasoline"
  | DIESEL => "Diesel"
  | PROPANE => "Propane"
  | CNG => "CNG"
  | ETHANOL => "Ethanol"
  | BIODIESEL => "Bio-diesel"
  end.

Record t := mk {
  id : option Z;
  name : string;
  image : string;
  brand_id : Z;
  passengers : Z;
  doors : Z;
  has_air_conditioning : bool;
  has_power_locks : bool;
  has_power_windows : bool;
  fuel_type : FuelTypes;
  is_automatic : bool;
  horsepower : Z;
  top_speed : Z;
  acceleration_0_100 : Z;
  model_year : Z }.

Definition foreign_keys : list ForeignKey :=
  [ mkFK "car" "brand" "brand" CASCADE ].

Definition to_row_ (self : t) : Row :=
  mkRow "car" (option_value V_Int (id self))
    [ ("id", option_value V_Int (id self));
      ("name", V_Str (name self));
      ("image", V_Str (image self));
      ("brand_id", V_Int (brand_id self));
      ("passengers", V_Int (passengers self));
      ("doors", V_Int (doors self));
      ("has_air_conditioning", V_Bool (has_air_conditioning self));
      ("has_power_locks", V_Bool (has_power_locks self));
      ("has_power_windows", V_Bool (has_power_windows self));
      ("fuel_type", V_Str (FuelTypes_value (fuel_type self)));
      ("is_automatic", V_Bool (is_automatic self));
      ("horsepower", V_Int (horsepower self));
      ("top_speed", V_Int (top_speed self));
      ("acceleration_0_100", V_Decimal (acceleration_0_100 self));
      ("model_year", V_Int (model_year self)) ].

#[global] Instance Car_Model : Model t := {
  to_row := to_row_;
  pk_val self := option_map V_Int (id self);
  set_auto_id v self :=
    mk (Some v) (name self) (image self) (brand_id self) (passengers self)
       (doors self) (has_air_conditioning self) (has_power_locks self)
       (has_power_windows self) (fuel_type self) (is_automatic self)
       (horsepower self) (top_speed self) (acceleration_0_100 self)
       (model_year self);
  auto_now := None }.

(** [self.name + f"({self.brand.name})"] *)
Definition __str__ (ext : Externals) (db : Database) (self : Row) : Result string :=
  name <-- getattr "Car" foreign_keys db self "name" ;;
  brand <-- getattr "Car" foreign_keys db self "brand" ;;
  brand_name <-- getattr_of "Brand" Brand.foreign_keys db brand "name" ;;
  inner <-- format ext no_method brand_name ;;
  left <-- as_str name ;;
  Ok (String.append left (String.append "(" (String.append inner ")"))).
End Car.

Module Rental.
Inductive RentType := DAILY | WEEKLY | MONTHLY | YEARLY.

Definition RentType_value (x : RentType) : string :=
  match x with
  | DAILY => "Daily"
  | WEEKLY => "Weekly"
  | MONTHLY => "Monthly"
  | YEARLY => "Yearly"
  end.

Record t := mk {
  id : option Z;
  owner_id : Z;
  car_id : Z;
  rent_type : RentType;
  rent_value : Z;
  created_at : Z;
  updated_at : option Z }.

Definition set_updated_at (v : option Z) (self : t) : t :=
  mk (id self) (owner_id self) (car_id self) (rent_type self) (rent_value self)
     (created_at self) v.

Definition foreign_keys : list ForeignKey :=
  [ mkFK "rental" "owner" "profileuser" CASCADE;
    mkFK "rental" "car" "car" CASCADE ].

Definition to_row_ (self : t) : Row :=
  mkRow "rental" (option_value V_Int (id self))
    [ ("id", option_value V_Int (id self));
      ("owner_id", V_Int (owner_id self));
      ("car_id", V_Int (car_id self));
      ("rent_type", V_Str (RentType_value (rent_type self)));
      ("rent_value", V_Decimal (rent_value self));
      ("created_at", V_DateTime (created_at self));
      ("updated_at", option_value V_DateTime (updated_at self)) ].

#[global] Instance Rental_Model : Model t := {
  to_row := to_row_;
  pk_val self := option_map V_Int (id self);
  set_auto_id v self :=
    mk (Some v) (owner_id self) (car_id self) (rent_type self) (rent_value self)
       (created_at self) (updated_at self);
  auto_now := Some (fun value => set_updated_at (Some value)) }.

(** [Rental(owner=..., car=..., rent_value=...)]: the fields declared with
    a default take it when no value is passed. *)
Definition __init__ (owner_id car_id : Z) (rent_type : option RentType)
    (rent_value : Z) (created_at : option Z) : M t :=
  created_at <- match created_at with
                | Some t => ret t
                | None => timezone_now
                end ;;
  ret (mk None owner_id car_id
          (match rent_type with Some x => x | None => WEEKLY end)
          rent_value created_at None).

Definition __str__ (ext : Externals) (db : Database) (self : Row) : Result string :=
  owner <-- getattr "Rental" foreign_keys db self "owner" ;;
  s1 <-- format ext no_method owner ;;
  car <-- getattr "Rental" foreign_keys db self "car" ;;
  s2 <-- format ext (Car.__str__ ext db) car ;;
  Ok (String.append s1 (String.append " - " s2)).

(** [save(self, *args, **kwargs)], called without further arguments: the
    assignment, then the [save] of the base class. *)
Definition save (self : t) : M t :=
  now <- timezone_now ;;
  let self := set_updated_at (Some now) self in
  Model_save self.
End Rental.

Module Review.
Record t := mk {
  id : option Z;
  reviewer_id : Z;
  rental_id : Z;
  stars : Z;
  comment : string;
  created_at : Z;
  updated_at : option Z }.

Definition set_updated_at (v : option Z) (self : t) : t :=
  mk (id self) (reviewer_id self) (rental_id self) (stars self) (comment self)
     (created_at self) v.

Definition foreign_keys : list ForeignKey :=
  [ mkFK "review" "reviewer" "profileuser" CASCADE;
    mkFK "review" "rental" "rental" CASCADE ].

Definition to_row_ (self : t) : Row :=
  mkRow "review" (option_value V_Int (id self))
    [ ("id", option_value V_Int (id self));
      ("reviewer_id", V_Int (reviewer_id self));
      ("rental_id", V_Int (rental_id self));
      ("stars", V_Decimal (stars self));
      ("comment", V_Str (comment self));
      ("created_at", V_DateTime (created_at self));
      ("updated_at", option_value V_DateTime (updated_at self)) ].

#[global] Instance Review_Model : Model t := {
  to_row := to_row_;
  pk_val self := option_map V_Int (id self);
  set_auto_id v self :=
    mk (Some v) (reviewer_id self) (rental_id self) (stars self) (comment self)
       (created_at self) (updated_at self);
  auto_now := Some (fun value => set_updated_at (Some value)) }.

Definition __init__ (reviewer_id rental_id stars : Z) (comment : string)
    (created_at : option Z) : M t :=
  created_at <- match created_at with
                | Some t => ret t
                | None => timezone_now
                end ;;
  ret (mk None reviewer_id rental_id stars comment created_at None).

Definition save (self : t) : M t :=
  now <- timezone_now ;;
  let self := set_updated_at (Some now) self in
  Model_save self.

Definition __str__ (ext : Externals) (db : Database) (self : Row) : Result string :=
  reviewer <-- getattr "Review" foreign_keys db self "reviewer" ;;
  s1 <-- format ext no_method reviewer ;;
  rental <-- getattr "Review" foreign_keys db self "rental" ;;
  s2 <-- format ext (Rental.__str__ ext db) rental ;;
  Ok (String.append s1 (String.append " [" (String.append s2 "]"))).
End Review.

Module Favorite.
Record t := mk {
  id : option Z;
  owner_id : Z;
  rental_id : Z;
  created_at : Z;
  updated_at : option Z }.

Definition set_updated_at (v : option Z) (self : t) : t :=
  mk (id self) (owner_id self) (rental_id self) (created_at self) v.

Definition foreign_keys : list ForeignKey :=
  [ mkFK "favorite" "owner" "profileuser" CASCADE;
    mkFK "favorite" "rental" "rental" CASCADE ].

Definition to_row_ (self : t) : Row :=
  mkRow "favorite" (option_value V_Int (id self))
    [ ("id", option_value V_Int (id self));
      ("owner_id", V_Int (owner_id self));
      ("rental_id", V_Int (rental_id self));
      ("created_at", V_DateTime (created_at self));
      ("updated_at", option_value V_DateTime (updated_at self)) ].

#[global] Instance Favorite_Model : Model t := {
  to_row := to_row_;
  pk_val self := option_map V_Int (id self);
  set_auto_id v self :=
    mk (Some v) (owner_id self) (rental_id self) (created_at self) (updated_at self);
  auto_now := Some (fun value => set_updated_at (Some value)) }.

Definition __init__ (owner_id rental_id : Z) (created_at : option Z) : M t :=
  created_at <- match created_at with
                | Some t => ret t
                | None => timezone_now
                end ;;
  ret (mk None owner_id rental_id created_at None).

Definition save (self : t) : M t :=
  now <- timezone_now ;;
  let self := set_updated_at (Some now) self in
  Model_save self.

Definition __str__ (ext : Externals) (db : Database) (self : Row) : Result string :=
  user <-- getattr "Favorite" foreign_keys db self "user" ;;
  s1 <-- format ext no_method user ;;
  rental <-- getattr "Favorite" foreign_keys db self "rental" ;;
  s2 <-- format ext (Rental.__str__ ext db) rental ;;
  Ok (String.append s1 (String.append " [" (String.append s2 "]"))).
End Favorite.

Module Payment.
Inductive Type_ := CREDIT_CARD | DEBIT_CARD | CASH.

Definition Type_value (x : Type_) : string :=
  match x with
  | CREDIT_CARD => "Credit Card"
  | DEBIT_CARD => "Debit Card"
  | CASH => "Cash"
  end.

Inductive Status := PENDING | COMPLETED | CANCELLED | FAILED.

Definition Status_value (x : Status) : string :=
  match x with
  | PENDING => "Pending"
  | COMPLETED => "Completed"
  | CANCELLED => "Cancelled"
  | FAILED => "Failed"
  end.

Record t := mk {
  owner_id : Z;
  receiver_id : Z;
  payment_type : Type_;
  payment_hash : string;
  payment_status : Status;
  amount : Z;
  description : string;
  bill_date : Z;
  created_at : Z;
  updated_at : option Z }.

Definition set_payment_hash (v : string) (self : t) : t :=
  mk (owner_id self) (receiver_id self) (payment_type self) v
     (payment_status self) (amount self) (description self) (bill_date self)
     (created_at self) (updated_at self).

Definition set_updated_at (v : option Z) (self : t) : t :=
  mk (owner_id self) (receiver_id self) (payment_type self) (payment_hash self)
     (payment_status self) (amount self) (description self) (bill_date self)
     (created_at self) v.

Definition foreign_keys : list ForeignKey :=
  [ mkFK "payment" "owner" "profileuser" CASCADE;
    mkFK "payment" "receiver" "profileuser" CASCADE ].

(** The name of the field declared with [primary_key=True]. *)
Definition primary_key : string := "payment_hash".

Definition to_row_ (self : t) : Row :=
  mkRow "payment" (V_Str (payment_hash self))
    [ ("owner_id", V_Int (owner_id self));
      ("receiver_id", V_Int (receiver_id self));
      ("payment_type", V_Str (Type_value (payment_type self)));
      ("payment_hash", V_Str (payment_hash self));
      ("payment_status", V_Str (Status_value (payment_status self)));
      ("amount", V_Decimal (amount self));
      ("description", V_Str (description self));
      ("bill_date", V_DateTime (bill_date self));
      ("created_at", V_DateTime (created_at self));
      ("updated_at", option_value V_DateTime (updated_at self)) ].

#[global] Instance Payment_Model : Model t := {
  to_row := to_row_;
  pk_val self := Some (V_Str (payment_hash self));
  set_auto_id v self := self;
  auto_now := Some (fun value => set_updated_at (Some value)) }.

(** A [CharField] that is given no value starts as the empty string. *)
Definition __init__ (owner_id receiver_id : Z) (payment_type : option Type_)
    (payment_hash : option string) (payment_status : option Status)
    (amount : Z) (description : option string) (bill_date : Z)
    (created_at : option Z) : M t :=
  created_at <- match created_at with
                | Some t => ret t
                | None => timezone_now
                end ;;
  ret (mk owner_id receiver_id
          (match payment_type with Some x => x | None => CREDIT_CARD end)
          (match payment_hash with Some x => x | None => "" end)
          (match payment_status with Some x => x | None => PENDING end)
          amount
          (match description with Some x => x | None => "" end)
          bill_date created_at None).

Definition __str__ (ext : Externals) (db : Database) (self : Row) : Result string :=
  payment_hash <-- getattr "Payment" foreign_keys db self "payment_hash" ;;
  s <-- format ext no_method payment_hash ;;
  Ok (String.append "Payment HASH: " s).

Definition save (self : t) : M t :=
  self <- (if negb (truthy (payment_hash self))
           then
             u <- uuid.uuid4 ;;
             ret (set_payment_hash (SHA256.hexdigest (uuid.bytes_ u)) self)
           else ret self) ;;
  now <- timezone_now ;;
  let self := set_updated_at (Some now) self in
  Model_save self.
End Payment.

Module Booking.
Record t := mk {
  id : option Z;
  renter_id : Z;
  rental_id : Z;
  location_id : Z;
  rent_date : Z;
  return_date : Z;
  created_at : Z;
  updated_at : option Z }.

Definition set_updated_at (v : option Z) (self : t) : t :=
  mk (id self) (renter_id self) (rental_id self) (location_id self)
     (rent_date self) (return_date self) (created_at self) v.

(** [payments = ManyToManyField(Payment)] is stored in a table of its own,
    [booking_payments], one row per pair, each side a cascading key. *)
Definition foreign_keys : list ForeignKey :=
  [ mkFK "booking" "renter" "profileuser" CASCADE;
    mkFK "booking" "rental" "rental" CASCADE;
    mkFK "booking" "location" "address" CASCADE ].

Definition payments_foreign_keys : list ForeignKey :=
  [ mkFK "booking_payments" "booking" "booking" CASCADE;
    mkFK "booking_payments" "payment" "payment" CASCADE ].

Definition payments_row (id booking_id : Z) (payment_id : string) : Row :=
  mkRow "booking_payments" (V_Int id)
    [ ("id", V_Int id);
      ("booking_id", V_Int booking_id);
      ("payment_id", V_Str payment_id) ].

Definition to_row_ (self : t) : Row :=
  mkRow "booking" (option_value V_Int (id self))
    [ ("id", option_value V_Int (id self));
      ("renter_id", V_Int (renter_id self));
      ("rental_id", V_Int (rental_id self));
      ("location_id", V_Int (location_id self));
      ("rent_date", V_DateTime (rent_date self));
      ("return_date", V_DateTime (return_date self));
      ("created_at", V_DateTime (created_at self));
      ("updated_at", option_value V_DateTime (updated_at self)) ].

#[global] Instance Booking_Model : Model t := {
  to_row := to_row_;
  pk_val self := option_map V_Int (id self);
  set_auto_id v self :=
    mk (Some v) (renter_id self) (rental_id self) (location_id self)
       (rent_date self) (return_date self) (created_at self) (updated_at self);
  auto_now := Some (fun value => set_updated_at (Some value)) }.

Definition __init__ (renter_id rental_id location_id rent_date return_date : Z)
    (created_at : option Z) : M t :=
  created_at <- match created_at with
                | Some t => ret t
                | None => timezone_now
                end ;;
  ret (mk None renter_id rental_id location_id rent_date return_date
          created_at None).

Definition save (self : t) : M t :=
  now <- timezone_now ;;
  let self := set_updated_at (Some now) self in
  Model_save self.

Definition __str__ (ext : Externals) (db : Database) (self : Row) : Result string :=
  id <-- getattr "Booking" foreign_keys db self "id" ;;
  s0 <-- format ext no_method id ;;
  renter <-- getattr "Booking" foreign_keys db self "renter" ;;
  s1 <-- format ext no_method renter ;;
  rental <-- getattr "Booking" foreign_keys db self "rental" ;;
  s2 <-- format ext (Rental.__str__ ext db) rental ;;
  Ok (String.append s0
        (String.append " ["
           (String.append s1 (String.append " - " (String.append s2 "]"))))).
End Booking.

(** Every foreign key the module declares. *)
Definition schema : list ForeignKey :=
  Brand.foreign_keys ++ Car.foreign_keys ++ Rental.foreign_keys
  ++ Review.foreign_keys ++ Favorite.foreign_keys ++ Payment.foreign_keys
  ++ Booking.foreign_keys ++ Booking.payments_foreign_keys.

(** [obj.delete()] on an object of this module. *)
Definition delete (obj : Row) : M unit := Model_delete schema obj.

(** ** The entities that carry timestamps *)

Inductive Timestamped :=
| E_Rental (x : Rental.t)
| E_Review (x : Review.t)
| E_Favorite (x : Favorite.t)
| E_Payment (x : Payment.t)
| E_Booking (x : Booking.t).

Definition created_at (e : Timestamped) : Z :=
  match e with
  | E_Rental x => Rental.created_at x
  | E_Review x => Review.created_at x
  | E_Favorite x => Favorite.created_at x
  | E_Payment x => Payment.created_at x
  | E_Booking x => Booking.created_at x
  end.

Definition updated_at (e : Timestamped) : option Z :=
  match e with
  | E_Rental x => Rental.updated_at x
  | E_Review x => Review.updated_at x
  | E_Favorite x => Favorite.updated_at x
  | E_Payment x => Payment.updated_at x
  | E_Booking x => Booking.updated_at x
  end.

(** [e.save()], the method of the class of [e]. *)
Definition save (e : Timestamped) : M Timestamped :=
  match e with
  | E_Rental x => x' <- Rental.save x ;; ret (E_Rental x')
  | E_Review x => x' <- Review.save x ;; ret (E_Review x')
  | E_Favorite x => x' <- Favorite.save x ;; ret (E_Favorite x')
  | E_Payment x => x' <- Payment.save x ;; ret (E_Payment x')
  | E_Booking x => x' <- Booking.save x ;; ret (E_Booking x')
  end.

Definition stored (e : Timestamped) : Row :=
  match e with
  | E_Rental x => to_row x
  | E_Review x => to_row x
  | E_Favorite x => to_row x
  | E_Payment x => to_row x
  | E_Booking x => to_row x
  end.

(** [n] saves of a payment in a row. *)
Fixpoint save_again (n : nat) (p : Payment.t) : M Payment.t :=
  match n with
  | O => ret p
  | S n' => p' <- Payment.save p ;; save_again n' p'
  end.

(** ** The schema migration 0010 *)

Module migrations.

(** An argument of a field constructor: a constant, or a function given
    by its dotted path. *)
Inductive Arg :=
| constant (v : Value)
| callable (path : string).

Record Field := mkField {
  field_class : string;
  field_kwargs : list (string * Arg) }.

(** The state of the schema a migration works on: the models of the
    application, each with its fields by name. *)
Definition ProjectState := list (string * list (string * Field)).

Inductive Operation :=
| AlterField (model_name name : string) (field : Field).

Fixpoint get {A} (key : string) (l : list (string * A)) : option A :=
  match l with
  | [] => None
  | (k, v) :: l' => if String.eqb k key then Some v else get key l'
  end.

(** Replace the value bound to [key]; [None] when [key] is not bound. *)
Fixpoint replace {A} (key : string) (f : A -> option A) (l : list (string * A))
    : option (list (string * A)) :=
  match l with
  | [] => None
  | (k, v) :: l' =>
      if String.eqb k key
      then match f v with
           | Some v' => Some ((k, v') :: l')
           | None => None
           end
      else match replace key f l' with
           | Some l'' => Some ((k, v) :: l'')
           | None => None
           end
  end.

Definition get_field (st : ProjectState) (model_name name : string) : option Field :=
  match get model_name st with
  | Some fields => get name fields
  | None => None
  end.

(** [AlterField] on a state that holds the model and the field: the
    definition of the field is replaced by the new one, in its place. On
    a state without them the result is [None]: such a state is outside
    this model, the migration is written for a schema that has the field. *)
Definition state_forwards (op : Operation) (st : ProjectState) : option ProjectState :=
  match op with
  | AlterField model_name name field =>
      replace model_name (replace name (fun _ => Some field)) st
  end.

Fixpoint apply (ops : list Operation) (st : ProjectState) : option ProjectState :=
  match ops with
  | [] => Some st
  | op :: ops' =>
      match state_forwards op st with
      | Some st' => apply ops' st'
      | None => None
      end
  end.

Definition target (op : Operation) : string * string :=
  match op with
  | AlterField model_name name _ => (model_name, name)
  end.

Definition new_field (op : Operation) : Field :=
  match op with
  | AlterField _ _ field => field
  end.

(** The names of the models and of their fields, in order. *)
Definition layout (st : ProjectState) : list (string * list string) :=
  map (fun m => (fst m, map fst (snd m))) st.

End migrations.

Module Migration.
Import migrations.

Definition operations : list Operation :=
  [ AlterField "rental" "created_at"
      (mkField "DateTimeField" [("default", callable "django.utils.timezone.now")]);
    AlterField "review" "created_at"
      (mkField "DateTimeField" [("default", callable "django.utils.timezone.now")]) ].

End Migration.

(** ** Sample data *)

Module Sample.

(** A clock that advances by a second at each reading, an entropy source
    that yields 0, 1, 2, ... and an empty database. *)
Definition world : World :=
  mkWorld (fun i => 1700000000000000 + 1000000 * Z.of_nat i) 5
          (fun i => Z.of_nat i) 0 [].

Definition brand : Brand.t := Brand.mk (Some 1) "Fiat" "brand/fiat.png".

Definition car : Car.t :=
  Car.mk (Some 7) "Uno" "car/uno.png" 1 5 4 true false false Car.ETHANOL
         false 75 160 1390 2012.

Definition other_car : Car.t :=
  Car.mk (Some 8) "Gol" "car/gol.png" 2 5 4 true true false Car.GASOLINE
         false 80 170 1250 2015.

Definition rental : Rental.t :=
  Rental.mk (Some 3) 11 7 Rental.DAILY 12000 1700000000000000 None.

(** The same rental with an [updated_at] assigned by hand, a few years
    ahead of the clock of [world]. *)
Definition postdated_rental : Rental.t :=
  Rental.mk (Some 3) 11 7 Rental.DAILY 12000 1700000000000000
            (Some 1800000000000000).

(** The same rental as a save left it when the clock was read for the
    fourth time. *)
Definition saved_rental : Rental.t :=
  Rental.mk (Some 3) 11 7 Rental.DAILY 12000 1700000000000000
            (Some 1700000003000000).

Definition review : Review.t :=
  Review.mk (Some 4) 12 3 45 "Great car" 1700000000000000 None.

Definition favorite : Favorite.t :=
  Favorite.mk (Some 5) 12 3 1700000000000000 None.

Definition booking : Booking.t :=
  Booking.mk (Some 6) 12 3 21 1700000100000000 1700000900000000
             1700000000000000 None.

(** [Payment(owner=..., receiver=..., amount=..., bill_date=...)] before
    its first save. *)
Definition payment : Payment.t :=
  Payment.mk 12 11 Payment.CREDIT_CARD "" Payment.PENDING 12000 ""
             1700000100000000 1700000000000000 None.

Definition database : Database :=
  [ to_row brand; to_row car; to_row other_car; to_row rental; to_row review;
    to_row favorite; to_row booking; Booking.payments_row 1 6 "abc" ].

Definition populated : World :=
  mkWorld (clock world) (ticks world) (entropy world) (drawn world) database.

Definition externals : Externals :=
  mkExternals (fun model key => Ok (String.append model "#"))
              (fun t => "datetime").

Definition state : migrations.ProjectState :=
  [ ("rental",
     [ ("id", migrations.mkField "BigAutoField"
                [("primary_key", migrations.constant (V_Bool true))]);
       ("created_at", migrations.mkField "DateTimeField"
                [("auto_now_add", migrations.constant (V_Bool true))]) ]);
    ("review",
     [ ("created_at", migrations.mkField "DateTimeField"
                [("auto_now_add", migrations.constant (V_Bool true))]);
       ("comment", migrations.mkField "CharField"
                [("max_length", migrations.constant (V_Int 50))]) ]) ].

End Sample.

(** ** Properties used in the statements *)

Definition is_hex_digit (ch : ascii) : bool :=
  existsb (Ascii.eqb ch) (list_ascii_of_string "0123456789abcdef").

Definition is_hexadecimal (s : string) : bool :=
  forallb is_hex_digit (list_ascii_of_string s).

(** What the rows of a model class have in common: the key of the row is
    the key of the instance, every instance is stored under the same model
    name, stamping an [auto_now] field leaves the key alone, and an
    automatic [id] becomes the key. *)
Definition model_laws {T} (cls : Model T) : Prop :=
  (forall x : T,
     row_pk (to_row x) = match pk_val x with Some v => v | None => V_None end)
  /\ (forall x y : T, row_model (to_row x) = row_model (to_row y))
  /\ (forall set t x, auto_now = Some set -> pk_val (set t x) = pk_val x)
  /\ (forall v x, pk_val x = None -> pk_val (set_auto_id v x) = Some (V_Int v)).

(** The clock never goes back. *)
Definition monotone (clk : nat -> Z) : Prop :=
  forall i j : nat, (i <= j)%nat -> clk i <= clk j.

(** The [updated_at] of [e], when it is set, was read from the clock of [w]
    before now. *)
Definition read_before (w : World) (e : Timestamped) : Prop :=
  forall t0, updated_at e = Some t0 ->
  exists i : nat, (i < ticks w)%nat /\ clock w i = t0.

(** [w'] is [w] later on: the same clock, read at least as often. *)
Definition later (w w' : World) : Prop :=
  clock w' = clock w /\ (ticks w <= ticks w')%nat.

(** The rows [obj.delete()] collects in the database [db]. *)
Definition doomed (obj : Row) (db : Database) : list Row :=
  collect (List.length db) schema db [obj].

(** The rows of [db] that [collected] does not cover yet. *)
Definition pending (db : Database) (collected : list Row) : list Row :=
  filter (fun r => negb (existsb (same_record r) collected)) db.

(** No row of [db] that is kept refers, through a cascading key, to a row of
    [gone]. *)
Definition closed (sch : list ForeignKey) (db : Database) (gone : list Row) : Prop :=
  forall r parent,
    In r db -> In parent gone -> cascades_from sch parent r = true ->
    existsb (same_record r) gone = true.

(** ** Further properties used in the statements *)

(** Rows of the database that are the same record are equal rows. A table
    that lists one row twice is not excluded; [distinct_keys] excludes it. *)
Definition unique_keys (db : Database) : Prop :=
  forall r1 r2, In r1 db -> In r2 db -> same_record r1 r2 = true -> r1 = r2.

(** The record a row belongs to: its model and its primary key. *)
Definition record_of (r : Row) : string * Value := (row_model r, row_pk r).

(** Primary keys are unique: no two rows of the database, at different
    places, belong to the same record. *)
Definition distinct_keys (db : Database) : Prop := NoDup (map record_of db).

(** The key of [e] is set: an [id] for the models with an automatic key, a
    non-empty hash for a Payment. *)
Definition has_pk (e : Timestamped) : bool :=
  match row_pk (stored e) with
  | V_Int _ => true
  | V_Str s => truthy s
  | _ => false
  end.

(** The record of [e]: what [has_key] is asked of a row to be its row. *)
Definition is_row_of (e : Timestamped) : Row -> bool :=
  has_key (row_model (stored e)) (row_pk (stored e)).

(** The lengths the source gives the character columns. *)
Definition choices_max_length : nat := 20.
Definition payment_hash_max_length : nat := 100.

(** What a field is besides its default: its class and every other
    argument of its constructor. *)
Definition besides_default (f : migrations.Field) : string * list (string * migrations.Arg) :=
  (migrations.field_class f,
   filter (fun kv => negb (String.eqb (fst kv) "default")) (migrations.field_kwargs f)).

(** The operations [ops] change nothing but defaults: wherever they apply,
    every field is, besides its default, what it was. *)
Definition alters_defaults_only (ops : list migrations.Operation) : Prop :=
  forall st st' : migrations.ProjectState,
    migrations.apply ops st = Some st' ->
    forall m f,
      option_map besides_default (migrations.get_field st' m f)
      = option_map besides_default (migrations.get_field st m f).

(** * Theorems *)

(** ** The hash function agrees with the published test vectors *)

Example sha256_empty :
  SHA256.hexdigest [] =
  "e3b0c44298fc1c149afbf4c8996fb92427ae41e4649b934ca495991b7852b855".
Proof. vm_compute. reflexivity. Qed.

Example sha256_abc :
  SHA256.hexdigest (ord "abc") =
  "ba7816bf8f01cfea414140de5dae2223b00361a396177a9cb410ff61f20015ad".
Proof. vm_compute. reflexivity. Qed.

Example sha256_two_blocks :
  SHA256.hexdigest (repeat 97 100) =
  "2816597888e4a0d3a36b82b83316ab32680eb8f00f8cd3b904d681246d285a0e".
Proof. vm_compute. reflexivity. Qed.

Example sha256_constants :
  firstn 2 SHA256.K = [0x428a2f98; 0x71374491]
  /\ nth 63 SHA256.K 0 = 0xc67178f2
  /\ SHA256.a SHA256.H0 = 0x6a09e667
  /\ SHA256.h SHA256.H0 = 0x5be0cd19.
Proof. vm_compute. repeat split; reflexivity. Qed.

(** [uuid.UUID(bytes=bytes(range(16)), version=4)] and its digest. *)
Example uuid_version_bits :
  SHA256.hex (uuid.bytes_ (uuid.UUID (map Z.of_nat (seq 0 16)) 4)) =
  "000102030405460788090a0b0c0d0e0f".
Proof. vm_compute. reflexivity. Qed.

Example uuid_digest :
  SHA256.hexdigest (uuid.bytes_ (uuid.UUID (map Z.of_nat (seq 0 16)) 4)) =
  "af73551bcba2e2182b861a0776f8a4f82d2987df0dc2e9c4f377ea1681041453".
Proof. vm_compute. reflexivity. Qed.

(** ** Shape of a digest *)

Lemma int_to_bytes_length (len : nat) (n : Z) :
  List.length (int_to_bytes len n) = len.
Proof.
  revert n. induction len as [|len IH]; intros n; simpl.
  - reflexivity.
  - rewrite length_app, IH. simpl. lia.
Qed.

Lemma int_to_bytes_range (len : nat) (n : Z) :
  Forall (fun x => 0 <= x < 256) (int_to_bytes len n).
Proof.
  revert n. induction len as [|len IH]; intros n; simpl.
  - constructor.
  - apply Forall_app. split.
    + apply IH.
    + constructor; [apply Z.mod_pos_bound; lia | constructor].
Qed.

Lemma digest_length (msg : bytes) : List.length (SHA256.digest msg) = 32%nat.
Proof.
  unfold SHA256.digest. cbv zeta.
  generalize (SHA256.blocks (List.length (SHA256.pad msg) / 64) SHA256.H0 (SHA256.pad msg)).
  intros s. cbn [flat_map].
  repeat rewrite length_app. repeat rewrite int_to_bytes_length. reflexivity.
Qed.

Lemma digest_range (msg : bytes) :
  Forall (fun x => 0 <= x < 256) (SHA256.digest msg).
Proof.
  unfold SHA256.digest. cbv zeta.
  generalize (SHA256.blocks (List.length (SHA256.pad msg) / 64) SHA256.H0 (SHA256.pad msg)).
  intros s. generalize [SHA256.a s; SHA256.b s; SHA256.c s; SHA256.d s;
                         SHA256.e s; SHA256.f s; SHA256.g s; SHA256.h s].
  intros ws. induction ws as [|x ws IH]; cbn [flat_map].
  - constructor.
  - apply Forall_app. split; [apply int_to_bytes_range | exact IH].
Qed.

Lemma hex_length (bs : bytes) :
  String.length (SHA256.hex bs) = (2 * List.length bs)%nat.
Proof.
  induction bs as [|x bs IH]; simpl.
  - reflexivity.
  - rewrite IH. lia.
Qed.

Lemma hex_digit_is_hex (n : Z) :
  0 <= n < 16 -> is_hex_digit (SHA256.hex_digit n) = true.
Proof.
  intros Hn. unfold SHA256.hex_digit.
  assert (Hk : (Z.to_nat n < 16)%nat) by lia.
  revert Hk. generalize (Z.to_nat n) as k. intros k Hk.
  do 16 (destruct k as [|k]; [reflexivity|]). lia.
Qed.

Lemma hex_is_hexadecimal (bs : bytes) :
  Forall (fun x => 0 <= x < 256) bs -> is_hexadecimal (SHA256.hex bs) = true.
Proof.
  unfold is_hexadecimal.
  induction 1 as [|x bs Hx _ IH]; simpl.
  - reflexivity.
  - rewrite IH, !hex_digit_is_hex.
    + reflexivity.
    + apply Z.mod_pos_bound. lia.
    + split; [apply Z.div_pos; lia | apply Z.div_lt_upper_bound; lia].
Qed.

Lemma hexdigest_length (msg : bytes) :
  String.length (SHA256.hexdigest msg) = 64%nat.
Proof. unfold SHA256.hexdigest. rewrite hex_length, digest_length. reflexivity. Qed.

Lemma hexdigest_is_hexadecimal (msg : bytes) :
  is_hexadecimal (SHA256.hexdigest msg) = true.
Proof. apply hex_is_hexadecimal, digest_range. Qed.

(** ** What a save does to an instance and to the world *)

Ltac run_save :=
  cbv [save Rental.save Review.save Favorite.save Payment.save Booking.save
       Model_save pre_save db_update db_insert next_id get_rows put_rows
       timezone_now uuid.uuid4 os_urandom bind ret
       pk_val auto_now to_row set_auto_id
       Rental.Rental_Model Review.Review_Model Favorite.Favorite_Model
       Payment.Payment_Model Booking.Booking_Model option_map];
  cbn [clock ticks entropy drawn rows fst snd truthy negb
       Rental.set_updated_at Review.set_updated_at Favorite.set_updated_at
       Payment.set_updated_at Booking.set_updated_at Payment.set_payment_hash
       Payment.payment_hash
       Rental.id Review.id Favorite.id Booking.id].

Ltac split_save :=
  repeat match goal with
         | |- context [match ?o with Some _ => _ | None => _ end] =>
             is_var o; destruct o
         | |- context [if existsb ?f ?l then _ else _] => destruct (existsb f l)
         end;
  cbn [clock ticks entropy drawn rows fst snd updated_at created_at
       Rental.updated_at Review.updated_at Favorite.updated_at
       Payment.updated_at Booking.updated_at
       Rental.created_at Review.created_at Favorite.created_at
       Payment.created_at Booking.created_at Payment.payment_hash
       Payment.set_payment_hash pred].

(** A save reads the clock, once or more, and leaves in [updated_at] the
    last value it read; it does not touch [created_at]. *)
Lemma save_spec (e : Timestamped) (w : World) :
  clock (snd (save e w)) = clock w
  /\ entropy (snd (save e w)) = entropy w
  /\ (drawn w <= drawn (snd (save e w)))%nat
  /\ (ticks w < ticks (snd (save e w)))%nat
  /\ updated_at (fst (save e w))
     = Some (clock w (pred (ticks (snd (save e w)))))
  /\ created_at (fst (save e w)) = created_at e.
Proof.
  destruct w as [clk tk en dr db].
  destruct e as [x|x|x|x|x]; destruct x; run_save;
    try match goal with
        | |- context [truthy ?s] => destruct s; cbn [truthy negb]
        end;
    split_save; repeat split; try reflexivity; lia.
Qed.

(** What [Payment.save] does to the hash: a payment without one draws the
    16 bytes of a UUID and takes the digest of its bytes; a payment with
    one keeps it and draws nothing. *)
Lemma Payment_save_hash (p : Payment.t) (w : World) :
  (Payment.payment_hash p = "" ->
     Payment.payment_hash (fst (Payment.save p w))
     = SHA256.hexdigest (uuid.bytes_ (fst (uuid.uuid4 w)))
     /\ drawn (snd (Payment.save p w)) = (drawn w + 16)%nat)
  /\ (Payment.payment_hash p <> "" ->
     Payment.payment_hash (fst (Payment.save p w)) = Payment.payment_hash p
     /\ drawn (snd (Payment.save p w)) = drawn w).
Proof.
  destruct w as [clk tk en dr db].
  destruct p as [o r pt ph ps am de bd ca ua]. cbn [Payment.payment_hash].
  split; intros Hh.
  - subst ph. run_save. split_save; split; reflexivity.
  - destruct ph as [|ch ph]; [congruence|].
    run_save. split_save; split; reflexivity.
Qed.

(** ** Rows and keys *)

Lemma Value_eqb_eq (x y : Value) : Value_eqb x y = true <-> x = y.
Proof.
  destruct x, y; simpl; split; intros H; try discriminate; try reflexivity;
    try (inversion H; subst;
         first [apply Z.eqb_refl | apply String.eqb_refl | apply Bool.eqb_reflx]).
  - apply Bool.eqb_prop in H. congruence.
  - apply Z.eqb_eq in H. congruence.
  - apply Z.eqb_eq in H. congruence.
  - apply String.eqb_eq in H. congruence.
  - apply Z.eqb_eq in H. congruence.
Qed.

Lemma has_key_spec (model : string) (key : Value) (r : Row) :
  has_key model key r = true <-> row_model r = model /\ row_pk r = key.
Proof.
  unfold has_key. rewrite andb_true_iff, String.eqb_eq, Value_eqb_eq. tauto.
Qed.

Lemma same_record_refl (r : Row) : same_record r r = true.
Proof. apply has_key_spec. split; reflexivity. Qed.

Lemma max_id_le (model : string) (db : Database) (acc : Z) :
  acc <= fold_left (max_id model) db acc.
Proof.
  revert acc. induction db as [|x db IH]; intros acc; simpl.
  - lia.
  - etransitivity; [|apply IH]. unfold max_id.
    destruct (String.eqb (row_model x) model); [|lia].
    destruct (row_pk x); lia.
Qed.

Lemma max_id_bound (model : string) (db : Database) (acc : Z) (r : Row) (n : Z) :
  In r db -> row_model r = model -> row_pk r = V_Int n ->
  n <= fold_left (max_id model) db acc.
Proof.
  revert acc. induction db as [|x db IH]; intros acc Hin Hm Hk; simpl.
  - contradiction.
  - destruct Hin as [-> | Hin].
    + etransitivity; [|apply max_id_le]. unfold max_id.
      rewrite Hm, String.eqb_refl, Hk. lia.
    + apply IH; assumption.
Qed.

(** The next automatic [id] is not the key of a row of the table. *)
Lemma next_id_fresh (model : string) (w : World) :
  existsb (has_key model (V_Int (fst (next_id model w)))) (rows w) = false.
Proof.
  unfold next_id, bind, get_rows, ret. cbn [fst].
  destruct (existsb _ _) eqn:Hex; [|reflexivity].
  apply existsb_exists in Hex. destruct Hex as [r [Hin Hkey]].
  apply has_key_spec in Hkey. destruct Hkey as [Hm Hk].
  pose proof (max_id_bound model (rows w) 0 r _ Hin Hm Hk). lia.
Qed.

(** ** A saved instance is in the database *)

Lemma db_update_spec (r : Row) (w : World) :
  db_update r w =
  if existsb (has_key (row_model r) (row_pk r)) (rows w)
  then (true,
        mkWorld (clock w) (ticks w) (entropy w) (drawn w)
          (map (fun r' => if has_key (row_model r) (row_pk r) r' then r else r')
               (rows w)))
  else (false, w).
Proof.
  unfold db_update, bind, get_rows, put_rows, ret, same_record.
  destruct (existsb _ _); reflexivity.
Qed.

Ltac prove_laws :=
  unfold model_laws; split; [|split; [|split]]; cbn;
  [ intros x; destruct x; cbn;
    try match goal with
        | |- context [option_map _ ?o] => destruct o
        end; reflexivity
  | reflexivity
  | intros set t x Hset; try discriminate;
    injection Hset as Hset; subst set; reflexivity
  | intros v x Hx; try discriminate; reflexivity ].

Lemma Rental_laws : model_laws Rental.Rental_Model.
Proof. prove_laws. Qed.

Lemma Review_laws : model_laws Review.Review_Model.
Proof. prove_laws. Qed.

Lemma Favorite_laws : model_laws Favorite.Favorite_Model.
Proof. prove_laws. Qed.

Lemma Payment_laws : model_laws Payment.Payment_Model.
Proof. prove_laws. Qed.

Lemma Booking_laws : model_laws Booking.Booking_Model.
Proof. prove_laws. Qed.

Lemma Brand_laws : model_laws Brand.Brand_Model.
Proof. prove_laws. Qed.

Lemma Car_laws : model_laws Car.Car_Model.
Proof. prove_laws. Qed.

Section ModelSave.
Context {T : Type} {cls : Model T}.
Hypothesis laws : model_laws cls.

Lemma pre_save_key (self : T) (w : World) :
  pk_val (fst (pre_save self w)) = pk_val self
  /\ rows (snd (pre_save self w)) = rows w.
Proof.
  destruct laws as (_ & _ & Hstamp & _).
  unfold pre_save. destruct auto_now as [set|] eqn:Hset.
  - unfold bind, timezone_now, ret. cbn. split; [apply Hstamp; reflexivity | reflexivity].
  - unfold ret. cbn. split; reflexivity.
Qed.

Lemma row_has_key (x : T) (v : Value) :
  pk_val x = Some v -> has_key (row_model (to_row x)) v (to_row x) = true.
Proof.
  destruct laws as (Hpk & _).
  intros Hv. apply has_key_spec. split; [reflexivity|]. rewrite Hpk, Hv. reflexivity.
Qed.

(** [Model.save] ends with the row of the instance either written over
    the record that had its key, or appended when no record had it. *)
Lemma Model_save_cases (self : T) (w : World) :
  let self' := fst (Model_save self w) in
  let w' := snd (Model_save self w) in
  let model := row_model (to_row self') in
  let key := row_pk (to_row self') in
  has_key model key (to_row self') = true
  /\ ((existsb (has_key model key) (rows w) = true
       /\ rows w' = map (fun r' => if has_key model key r' then to_row self' else r')
                        (rows w))
      \/ (existsb (has_key model key) (rows w) = false
          /\ rows w' = rows w ++ [to_row self'])).
Proof.
  pose proof laws as (Hpk & Hmodel & Hstamp & Hid).
  cbv zeta. unfold Model_save.
  destruct (pk_val self) as [v|] eqn:Hv; unfold bind.
  - pose proof (pre_save_key self w) as [Hk1 Hr1].
    destruct (pre_save self w) as [self1 w1]. cbn [fst snd] in Hk1, Hr1.
    rewrite Hv in Hk1.
    rewrite db_update_spec, (Hpk self1), Hk1, Hr1.
    destruct (existsb (has_key (row_model (to_row self1)) v) (rows w)) eqn:Hex.
    + unfold ret. cbn [fst snd rows]. rewrite (Hpk self1), Hk1.
      split; [apply row_has_key; exact Hk1|].
      left. split; [exact Hex | reflexivity].
    + pose proof (pre_save_key self1 w1) as [Hk2 Hr2].
      destruct (pre_save self1 w1) as [self2 w2]. cbn [fst snd] in Hk2, Hr2.
      rewrite Hk1 in Hk2.
      unfold db_insert, bind, get_rows, put_rows, ret. cbn [fst snd rows].
      rewrite (Hpk self2), Hk2, (Hmodel self2 self1).
      split; [rewrite (Hmodel self1 self2); apply row_has_key; exact Hk2|].
      right. split; [exact Hex | congruence].
  - pose proof (pre_save_key self w) as [Hk1 Hr1].
    destruct (pre_save self w) as [self1 w1]. cbn [fst snd] in Hk1, Hr1.
    rewrite Hv in Hk1.
    pose proof (next_id_fresh (row_model (to_row self1)) w1) as Hfresh.
    destruct (next_id (row_model (to_row self1)) w1) as [id w2] eqn:Hnext.
    assert (Hw2 : w2 = w1).
    { unfold next_id, bind, get_rows, ret in Hnext. congruence. }
    subst w2. cbn [fst] in Hfresh.
    unfold db_insert, bind, get_rows, put_rows, ret. cbn [fst snd rows].
    rewrite (Hpk (set_auto_id id self1)), (Hid id self1 Hk1).
    rewrite (Hmodel (set_auto_id id self1) self1).
    split.
    + rewrite (Hmodel self1 (set_auto_id id self1)). apply row_has_key, Hid, Hk1.
    + right. rewrite <- Hr1. split; [exact Hfresh | reflexivity].
Qed.

End ModelSave.

(** ** Payment: the hash *)

(** C1. A Payment whose [payment_hash] is empty leaves [save] with the
    SHA-256 hex digest of the bytes of a UUID generated for it from 16
    bytes of fresh entropy: a string of 64 hexadecimal characters. *)
Theorem Payment_save_assigns_hash (p : Payment.t) (w : World) :
  Payment.payment_hash p = "" ->
  let p' := fst (Payment.save p w) in
  let w' := snd (Payment.save p w) in
  Payment.payment_hash p' = SHA256.hexdigest (uuid.bytes_ (fst (uuid.uuid4 w)))
  /\ drawn w' = (drawn w + 16)%nat
  /\ String.length (Payment.payment_hash p') = 64%nat
  /\ is_hexadecimal (Payment.payment_hash p') = true.
Proof.
  intros Hempty. cbv zeta.
  destruct (Payment_save_hash p w) as [Hnew _].
  destruct (Hnew Hempty) as [Hhash Hdrawn].
  rewrite Hhash.
  split; [reflexivity|]. split; [exact Hdrawn|].
  split; [apply hexdigest_length | apply hexdigest_is_hexadecimal].
Qed.

Lemma Payment_save_assigns_hash_witness :
  Payment.payment_hash Sample.payment = ""
  /\ Payment.payment_hash (fst (Payment.save Sample.payment Sample.world))
     = SHA256.hexdigest (uuid.bytes_ (fst (uuid.uuid4 Sample.world)))
  /\ String.length (Payment.payment_hash (fst (Payment.save Sample.payment Sample.world)))
     = 64%nat.
Proof.
  split; [reflexivity|].
  pose proof (Payment_save_assigns_hash Sample.payment Sample.world eq_refl) as H.
  cbv zeta in H. destruct H as (H1 & _ & H3 & _). split; assumption.
Defined.

(** The hash the sample payment receives: the entropy yields the bytes 0
    to 15, the UUID is 00010203-0405-4607-8809-0a0b0c0d0e0f. *)
Example Payment_save_sample :
  Payment.payment_hash (fst (Payment.save Sample.payment Sample.world))
  = "af73551bcba2e2182b861a0776f8a4f82d2987df0dc2e9c4f377ea1681041453".
Proof. vm_compute. reflexivity. Qed.

Lemma save_again_keeps_hash (n : nat) (p : Payment.t) (w : World) :
  Payment.payment_hash p <> "" ->
  Payment.payment_hash (fst (save_again n p w)) = Payment.payment_hash p
  /\ drawn (snd (save_again n p w)) = drawn w.
Proof.
  revert p w. induction n as [|n IH]; intros p w Hset; simpl.
  - split; reflexivity.
  - unfold bind.
    destruct (Payment_save_hash p w) as [_ Hkeep].
    destruct (Hkeep Hset) as [Hhash Hdrawn].
    destruct (Payment.save p w) as [p1 w1]. cbn [fst snd] in Hhash, Hdrawn.
    rewrite <- Hhash, <- Hdrawn. apply IH. congruence.
Qed.

(** C2. A Payment whose [payment_hash] is set keeps it through [save], and
    no UUID is generated; so it is through any number of saves. When the
    hash is generated, by the first save of a payment without one, the
    saves that follow keep that hash and generate nothing. *)
Theorem Payment_save_keeps_hash (p : Payment.t) (w : World) :
  Payment.payment_hash p <> "" ->
  (Payment.payment_hash (fst (Payment.save p w)) = Payment.payment_hash p
   /\ drawn (snd (Payment.save p w)) = drawn w)
  /\ (forall n : nat,
        Payment.payment_hash (fst (save_again n p w)) = Payment.payment_hash p
        /\ drawn (snd (save_again n p w)) = drawn w).
Proof.
  intros Hset. split.
  - destruct (Payment_save_hash p w) as [_ Hkeep]. exact (Hkeep Hset).
  - intros n. apply save_again_keeps_hash. exact Hset.
Qed.

Lemma Payment_save_keeps_hash_witness :
  let p := fst (Payment.save Sample.payment Sample.world) in
  let w := snd (Payment.save Sample.payment Sample.world) in
  Payment.payment_hash p <> ""
  /\ Payment.payment_hash (fst (Payment.save p w)) = Payment.payment_hash p
  /\ drawn (snd (save_again 3 p w)) = drawn w.
Proof.
  cbv zeta.
  assert (Hset : Payment.payment_hash
                   (fst (Payment.save Sample.payment Sample.world)) <> "").
  { rewrite Payment_save_sample. discriminate. }
  split; [exact Hset|].
  destruct (Payment_save_keeps_hash _ (snd (Payment.save Sample.payment Sample.world)) Hset)
    as [[H1 _] H2].
  split; [exact H1 | exact (proj2 (H2 3%nat))].
Defined.

(** Whatever the payment, after the first save the hash is set, and the
    saves that follow neither change it nor generate another UUID: over
    [S n] saves at most 16 bytes of entropy are drawn. *)
Lemma Payment_hash_generated_once (n : nat) (p : Payment.t) (w : World) :
  let p1 := fst (Payment.save p w) in
  let w1 := snd (Payment.save p w) in
  Payment.payment_hash p1 <> ""
  /\ Payment.payment_hash (fst (save_again n p1 w1)) = Payment.payment_hash p1
  /\ drawn (snd (save_again n p1 w1)) = drawn w1
  /\ (drawn w1 <= drawn w + 16)%nat.
Proof.
  cbv zeta.
  assert (Hset : Payment.payment_hash (fst (Payment.save p w)) <> ""
                 /\ (drawn (snd (Payment.save p w)) <= drawn w + 16)%nat).
  { destruct (Payment_save_hash p w) as [Hnew Hkeep].
    destruct (string_dec (Payment.payment_hash p) "") as [He|Hne].
    - destruct (Hnew He) as [-> ->]. split; [|lia].
      intros Habs. pose proof (hexdigest_length (uuid.bytes_ (fst (uuid.uuid4 w)))) as Hl.
      rewrite Habs in Hl. discriminate.
    - destruct (Hkeep Hne) as [-> ->]. split; [exact Hne | lia]. }
  destruct Hset as [Hset Hdrawn].
  destruct (save_again_keeps_hash n _ (snd (Payment.save p w)) Hset) as [H1 H2].
  repeat split; assumption.
Qed.

(** ** Timestamps *)

Lemma stored_updated_at (e : Timestamped) :
  column "updated_at" (row_columns (stored e))
  = Some (option_value V_DateTime (updated_at e)).
Proof. destruct e as [x|x|x|x|x]; destruct x; reflexivity. Qed.

Lemma stored_created_at (e : Timestamped) :
  column "created_at" (row_columns (stored e)) = Some (V_DateTime (created_at e)).
Proof. destruct e as [x|x|x|x|x]; destruct x; reflexivity. Qed.

(** C3. Whatever the entity (Rental, Review, Favorite, Payment, Booking)
    and whatever its state, [save] leaves in [updated_at] of the instance a
    time read from the clock during that save. *)
Theorem save_sets_updated_at (e : Timestamped) (w : World) :
  let e' := fst (save e w) in
  let w' := snd (save e w) in
  exists i : nat,
    (ticks w <= i < ticks w')%nat
    /\ updated_at e' = Some (clock w i).
Proof.
  cbv zeta.
  destruct (save_spec e w) as (_ & _ & _ & Hticks & Hupd & _).
  exists (pred (ticks (snd (save e w)))).
  split; [lia | exact Hupd].
Qed.

(** The sample rental, saved when the clock has been read five times: the
    method reads it a sixth time and the UPDATE a seventh. *)
Example Rental_save_sample :
  Rental.updated_at (fst (Rental.save Sample.rental Sample.populated))
  = Some 1700000006000000.
Proof. vm_compute. reflexivity. Qed.

(** The invariant of [updated_at]: a new instance satisfies it, a save
    establishes it, and it holds on as time passes. *)
Lemma read_before_unset (e : Timestamped) (w : World) :
  updated_at e = None -> read_before w e.
Proof. intros Hnone t0 Ht0. congruence. Qed.

Lemma read_before_later (e : Timestamped) (w w' : World) :
  later w w' -> read_before w e -> read_before w' e.
Proof.
  intros [Hclock Hticks] Hrb t0 Ht0.
  destruct (Hrb t0 Ht0) as [i [Hi Hread]].
  exists i. split; [lia | rewrite Hclock; exact Hread].
Qed.

Lemma save_later (e : Timestamped) (w : World) : later w (snd (save e w)).
Proof.
  destruct (save_spec e w) as (Hclock & _ & _ & Hticks & _).
  split; [exact Hclock | lia].
Qed.

Lemma save_read_before (e : Timestamped) (w : World) :
  read_before (snd (save e w)) (fst (save e w)).
Proof.
  destruct (save_spec e w) as (Hclock & _ & _ & Hticks & Hupd & _).
  intros t0 Ht0. rewrite Hupd in Ht0. injection Ht0 as <-.
  exists (pred (ticks (snd (save e w)))). split; [lia | rewrite Hclock; reflexivity].
Qed.

(** C4, as stated, fails: [save] overwrites whatever [updated_at] holds with
    the time it reads, so a value that is ahead of the clock is moved back
    even though the clock never goes back. *)
Lemma save_can_move_updated_at_back :
  monotone (clock Sample.populated)
  /\ updated_at (E_Rental Sample.postdated_rental) = Some 1800000000000000
  /\ updated_at (fst (save (E_Rental Sample.postdated_rental) Sample.populated))
     = Some 1700000006000000
  /\ ~ (forall (e : Timestamped) (w : World),
          monotone (clock w) ->
          forall t0 t1,
            updated_at e = Some t0 ->
            updated_at (fst (save e w)) = Some t1 ->
            t0 <= t1).
Proof.
  assert (Hmono : monotone (clock Sample.populated)).
  { intros i j Hij. unfold Sample.populated, Sample.world. cbn [clock]. lia. }
  assert (Hsaved : updated_at (fst (save (E_Rental Sample.postdated_rental)
                                         Sample.populated))
                   = Some 1700000006000000).
  { vm_compute. reflexivity. }
  split; [exact Hmono|]. split; [reflexivity|]. split; [exact Hsaved|].
  intros Hall.
  pose proof (Hall (E_Rental Sample.postdated_rental) Sample.populated Hmono
                     1800000000000000 1700000006000000 eq_refl Hsaved) as Hle.
  lia.
Qed.

(** C4, amended. With a clock that never goes back, and an entity whose
    [updated_at] is unset or was read from that clock earlier (as
    [__init__] and every [save] leave it), [save] sets [updated_at] to a
    value that is at least the previous one. *)
Theorem save_updated_at_monotone (e : Timestamped) (w : World) :
  monotone (clock w) ->
  read_before w e ->
  exists t1,
    updated_at (fst (save e w)) = Some t1
    /\ forall t0, updated_at e = Some t0 -> t0 <= t1.
Proof.
  intros Hmono Hrb.
  destruct (save_spec e w) as (_ & _ & _ & Hticks & Hupd & _).
  exists (clock w (pred (ticks (snd (save e w))))). split; [exact Hupd|].
  intros t0 Ht0. destruct (Hrb t0 Ht0) as [i [Hi <-]].
  apply Hmono. lia.
Qed.

Lemma Sample_clock_monotone : monotone (clock Sample.world).
Proof. intros i j Hij. unfold Sample.world. cbn [clock]. lia. Qed.

Lemma save_updated_at_monotone_witness :
  monotone (clock Sample.populated)
  /\ read_before Sample.populated (E_Rental Sample.saved_rental)
  /\ updated_at (E_Rental Sample.saved_rental) = Some 1700000003000000
  /\ exists t1,
       updated_at (fst (save (E_Rental Sample.saved_rental) Sample.populated))
       = Some t1
       /\ forall t0,
            updated_at (E_Rental Sample.saved_rental) = Some t0 -> t0 <= t1.
Proof.
  assert (Hrb : read_before Sample.populated (E_Rental Sample.saved_rental)).
  { intros t0 Ht0. exists 3%nat. split; [cbn [Sample.populated ticks Sample.world]; lia|].
    injection Ht0 as <-. vm_compute. reflexivity. }
  split; [exact Sample_clock_monotone|].
  split; [exact Hrb|].
  split; [reflexivity|].
  exact (save_updated_at_monotone (E_Rental Sample.saved_rental) Sample.populated
           Sample_clock_monotone Hrb).
Defined.

(** Two saves of any entity, the second at the same time as or after the
    first: the second [updated_at] is at least the first. *)
Corollary save_twice_monotone (e : Timestamped) (w w2 : World) :
  monotone (clock w) ->
  later (snd (save e w)) w2 ->
  exists t1 t2,
    updated_at (fst (save e w)) = Some t1
    /\ updated_at (fst (save (fst (save e w)) w2)) = Some t2
    /\ t1 <= t2.
Proof.
  intros Hmono [Hclock2 Hticks2].
  destruct (save_spec e w) as (Hclock & _ & _ & Hticks & Hupd & _).
  destruct (save_spec (fst (save e w)) w2) as (_ & _ & _ & Hticks' & Hupd' & _).
  eexists. eexists. split; [exact Hupd|]. split; [exact Hupd'|].
  rewrite Hclock2, Hclock. apply Hmono. lia.
Qed.

(** C8. No [save] modifies the [created_at] of the instance; [created_at]
    is given its value when the instance is created: the time at that
    moment (the default [timezone.now]), unless one is passed. *)
Theorem save_keeps_created_at :
  (forall (e : Timestamped) (w : World),
     created_at (fst (save e w)) = created_at e)
  /\ (forall (w : World) owner car rent_type rent_value,
        Rental.created_at (fst (Rental.__init__ owner car rent_type rent_value None w))
        = clock w (ticks w))
  /\ (forall (w : World) reviewer rental stars comment,
        Review.created_at (fst (Review.__init__ reviewer rental stars comment None w))
        = clock w (ticks w))
  /\ (forall (w : World) owner rental,
        Favorite.created_at (fst (Favorite.__init__ owner rental None w))
        = clock w (ticks w))
  /\ (forall (w : World) owner receiver ptype phash pstatus amount description bill_date,
        Payment.created_at
          (fst (Payment.__init__ owner receiver ptype phash pstatus amount
                  description bill_date None w))
        = clock w (ticks w))
  /\ (forall (w : World) renter rental location rent_date return_date,
        Booking.created_at
          (fst (Booking.__init__ renter rental location rent_date return_date None w))
        = clock w (ticks w)).
Proof.
  split; [|repeat split; intros; reflexivity].
  intros e w.
  destruct (save_spec e w) as (_ & _ & _ & _ & _ & Hcreated).
  exact Hcreated.
Qed.

(** ** Payment: the primary key *)

Lemma uuid4_reads_entropy (w : World) :
  fst (uuid.uuid4 w)
  = uuid.UUID (map (fun i => entropy w i mod 256) (seq (drawn w) 16)) 4.
Proof. reflexivity. Qed.

(** C7. The primary key of a Payment is its [payment_hash]: the key of the
    instance and of its row is the value of that column. For a payment that
    has none, [save] computes it as the SHA-256 hex digest of the bytes of
    a version 4 UUID made of 16 bytes of entropy, which no field of the
    payment enters: any payment saved in that place receives the same. *)
Theorem Payment_primary_key (p : Payment.t) (w : World) :
  Payment.payment_hash p = "" ->
  let p' := fst (Payment.save p w) in
  Payment.primary_key = "payment_hash"
  /\ pk_val p' = Some (V_Str (Payment.payment_hash p'))
  /\ row_pk (to_row p') = V_Str (Payment.payment_hash p')
  /\ column Payment.primary_key (row_columns (to_row p')) = Some (row_pk (to_row p'))
  /\ Payment.payment_hash p'
     = SHA256.hexdigest
         (uuid.bytes_
            (uuid.UUID (map (fun i => entropy w i mod 256) (seq (drawn w) 16)) 4))
  /\ (forall q : Payment.t,
        Payment.payment_hash q = "" ->
        Payment.payment_hash (fst (Payment.save q w)) = Payment.payment_hash p').
Proof.
  intros Hempty. cbv zeta.
  destruct (Payment_save_hash p w) as [Hnew _].
  destruct (Hnew Hempty) as [Hhash _].
  split; [reflexivity|]. split; [reflexivity|]. split; [reflexivity|].
  split; [destruct (fst (Payment.save p w)); reflexivity|].
  split; [rewrite Hhash, uuid4_reads_entropy; reflexivity|].
  intros q Hq. destruct (Payment_save_hash q w) as [Hnewq _].
  destruct (Hnewq Hq) as [-> _]. symmetry. exact Hhash.
Qed.

Lemma Payment_primary_key_witness :
  Payment.payment_hash Sample.payment = ""
  /\ row_pk (to_row (fst (Payment.save Sample.payment Sample.populated)))
     = V_Str (Payment.payment_hash (fst (Payment.save Sample.payment Sample.populated)))
  /\ Payment.payment_hash (fst (Payment.save Sample.payment Sample.populated))
     = SHA256.hexdigest
         (uuid.bytes_
            (uuid.UUID
               (map (fun i => entropy Sample.populated i mod 256)
                    (seq (drawn Sample.populated) 16)) 4)).
Proof.
  split; [reflexivity|].
  pose proof (Payment_primary_key Sample.payment Sample.populated eq_refl) as H.
  cbv zeta in H. destruct H as (_ & _ & Hpk & _ & Hhash & _).
  split; [exact Hpk | exact Hhash].
Defined.

(** ** Deletion reaches every dependent row *)

Lemma filter_nil {A} (f : A -> bool) (l : list A) :
  filter f l = [] <-> forall x, In x l -> f x = false.
Proof.
  induction l as [|a l IH]; simpl.
  - split; [intros _ x [] | reflexivity].
  - destruct (f a) eqn:Hfa; split.
    + discriminate.
    + intros H. specialize (H a (or_introl eq_refl)). congruence.
    + intros H x [<- | Hin]; [exact Hfa | apply IH; assumption].
    + intros H. apply IH. intros x Hin. apply H. right. exact Hin.
Qed.

Lemma filter_length_lt {A} (f g : A -> bool) (l : list A) (x : A) :
  (forall y, f y = true -> g y = true) ->
  In x l -> g x = true -> f x = false ->
  (List.length (filter f l) < List.length (filter g l))%nat.
Proof.
  intros Hfg. induction l as [|a l IH]; simpl; intros Hin Hgx Hfx.
  - contradiction.
  - assert (Hle : (List.length (filter f l) <= List.length (filter g l))%nat).
    { clear -Hfg. induction l as [|b l IHl]; simpl; [lia|].
      destruct (f b) eqn:Hfb.
      - rewrite (Hfg b Hfb). simpl. lia.
      - destruct (g b); simpl; lia. }
    destruct Hin as [-> | Hin].
    + rewrite Hfx, Hgx. simpl. lia.
    + specialize (IH Hin Hgx Hfx).
      destruct (f a) eqn:Hfa.
      * rewrite (Hfg a Hfa). simpl. lia.
      * destruct (g a); simpl; lia.
Qed.

Lemma existsb_app_l {A} (f : A -> bool) (l l' : list A) :
  existsb f l = true -> existsb f (l ++ l') = true.
Proof. intros H. rewrite existsb_app, H. reflexivity. Qed.

Section Collector.
Variable sch : list ForeignKey.
Variable db : Database.



Lemma nothing_added_closed (collected : list Row) :
  added sch db collected = [] -> closed sch db collected.
Proof.
  intros Hnil r parent Hr Hp Hc.
  destruct (existsb (same_record r) collected) eqn:Hex; [reflexivity|].
  pose proof (proj1 (filter_nil _ _) Hnil r Hr) as Hf. cbv beta in Hf.
  rewrite Hex in Hf. cbn [negb andb] in Hf.
  assert (Ht : existsb (fun parent => cascades_from sch parent r) collected = true).
  { apply existsb_exists. exists parent. split; assumption. }
  congruence.
Qed.

Lemma closed_nothing_added (collected : list Row) :
  closed sch db collected -> collect_related sch db collected = collected.
Proof.
  intros Hclosed. unfold collect_related.
  replace (added sch db collected) with (@nil Row); [apply app_nil_r|].
  symmetry. apply filter_nil. intros r Hr.
  destruct (existsb (same_record r) collected) eqn:Hex; [reflexivity|].
  cbn [negb andb].
  destruct (existsb (fun parent => cascades_from sch parent r) collected) eqn:Hp;
    [|reflexivity].
  apply existsb_exists in Hp. destruct Hp as [parent [Hin Hc]].
  rewrite (Hclosed r parent Hr Hin Hc) in Hex. discriminate.
Qed.

Lemma closed_collect (n : nat) (collected : list Row) :
  closed sch db collected -> collect n sch db collected = collected.
Proof.
  intros Hclosed. induction n as [|n IH]; simpl.
  - reflexivity.
  - rewrite (closed_nothing_added _ Hclosed). exact IH.
Qed.

(** A pass that adds a row leaves fewer rows pending. *)
Lemma pass_progress (collected : list Row) :
  added sch db collected <> [] ->
  (List.length (pending db (collect_related sch db collected))
   < List.length (pending db collected))%nat.
Proof.
  intros Hadded.
  destruct (added sch db collected) as [|x rest] eqn:Hx; [congruence|].
  assert (Hin : In x (added sch db collected)) by (rewrite Hx; left; reflexivity).
  unfold added in Hin. apply filter_In in Hin. destruct Hin as [Hxdb Hxf].
  apply andb_true_iff in Hxf. destruct Hxf as [Hnew _].
  unfold pending. apply filter_length_lt with (x := x).
  - intros y Hy. apply negb_true_iff in Hy. apply negb_true_iff.
    destruct (existsb (same_record y) collected) eqn:Hex; [|reflexivity].
    unfold collect_related in Hy. rewrite (existsb_app_l _ _ _ Hex) in Hy.
    discriminate.
  - exact Hxdb.
  - exact Hnew.
  - apply negb_false_iff. apply existsb_exists. exists x. split.
    + unfold collect_related. apply in_or_app. right.
      rewrite Hx. left. reflexivity.
    + apply same_record_refl.
Qed.

Lemma collect_closed_within (n : nat) (collected : list Row) :
  (List.length (pending db collected) <= n)%nat ->
  closed sch db (collect n sch db collected).
Proof.
  revert collected. induction n as [|n IH]; intros collected Hn; simpl.
  - intros r parent Hr _ _.
    assert (Hnil : pending db collected = []).
    { destruct (pending db collected); [reflexivity | simpl in Hn; lia]. }
    pose proof (proj1 (filter_nil _ _) Hnil r Hr) as Hf.
    apply negb_false_iff in Hf. exact Hf.
  - destruct (added sch db collected) as [|x rest] eqn:Hx.
    + pose proof (nothing_added_closed _ Hx) as Hclosed.
      rewrite (closed_nothing_added _ Hclosed), (closed_collect n _ Hclosed).
      exact Hclosed.
    + apply IH.
      assert (Hne : added sch db collected <> []) by (rewrite Hx; discriminate).
      pose proof (pass_progress _ Hne). lia.
Qed.

(** As many passes as the database has rows close the collection. *)
Lemma collect_closed (collected : list Row) :
  closed sch db (collect (List.length db) sch db collected).
Proof. apply collect_closed_within. unfold pending. apply filter_length_le. Qed.

End Collector.

(** ** Cascading deletes *)

Lemma delete_rows (obj : Row) (w : World) :
  rows (snd (delete obj w))
  = filter (fun r => negb (existsb (same_record r) (doomed obj (rows w)))) (rows w).
Proof. reflexivity. Qed.


(** Whether a row cascades from a parent depends on the parent's model and
    key only. *)
Lemma cascades_from_same_record (sch : list ForeignKey) (p p' r : Row) :
  same_record p p' = true ->
  cascades_from sch p' r = cascades_from sch p r.
Proof.
  intros Hsame. apply has_key_spec in Hsame. destruct Hsame as [Hm Hk].
  unfold cascades_from. rewrite Hm, Hk. reflexivity.
Qed.

(** A row of the database that refers to a doomed record through a
    cascading key is doomed too. *)
Lemma doomed_child (obj parent r : Row) (db : Database) :
  existsb (same_record parent) (doomed obj db) = true ->
  In r db ->
  cascades_from schema parent r = true ->
  existsb (same_record r) (doomed obj db) = true.
Proof.
  intros Hparent Hr Hc.
  apply existsb_exists in Hparent. destruct Hparent as [p' [Hin Hsame]].
  apply (collect_closed schema db [obj] r p' Hr Hin).
  rewrite (cascades_from_same_record _ _ _ _ Hsame). exact Hc.
Qed.

Lemma doomed_deleted (obj r : Row) (w : World) :
  existsb (same_record r) (doomed obj (rows w)) = true ->
  ~ In r (rows (snd (delete obj w))).
Proof.
  intros Hd Hin. rewrite delete_rows in Hin. apply filter_In in Hin.
  destruct Hin as [_ Hkeep]. rewrite Hd in Hkeep. discriminate.
Qed.

(** After a delete no row refers, through a cascading key, to a record that
    was deleted. *)
Lemma delete_leaves_no_orphan (obj parent r : Row) (w : World) :
  existsb (same_record parent) (doomed obj (rows w)) = true ->
  In r (rows (snd (delete obj w))) ->
  cascades_from schema parent r = false.
Proof.
  intros Hparent Hin.
  destruct (cascades_from schema parent r) eqn:Hc; [|reflexivity].
  exfalso. apply (doomed_deleted obj r w); [|exact Hin].
  rewrite delete_rows in Hin. apply filter_In in Hin. destruct Hin as [Hr _].
  exact (doomed_child obj parent r (rows w) Hparent Hr Hc).
Qed.









(** Deleting the sample brand takes its car with the rental, the review,
    the favorite, the booking and the payment link of the booking, and
    leaves the car of the other brand. *)
Example delete_Brand_sample :
  rows (snd (delete (to_row Sample.brand) Sample.populated))
  = [to_row Sample.other_car].
Proof. vm_compute. reflexivity. Qed.

Example delete_Rental_sample :
  rows (snd (delete (to_row Sample.rental) Sample.populated))
  = [to_row Sample.brand; to_row Sample.car; to_row Sample.other_car].
Proof. vm_compute. reflexivity. Qed.



(** ** String conversion *)

(** C9. [Favorite.__str__] raises [AttributeError] on every Favorite: it
    reads [self.user], and a Favorite has no attribute of that name; the
    user is in the field [owner]. *)
Theorem Favorite_str_raises (ext : Externals) (db : Database) (x : Favorite.t) :
  Favorite.__str__ ext db (to_row x) = Raise (AttributeError "Favorite" "user")
  /\ getattr "Favorite" Favorite.foreign_keys db (to_row x) "user"
     = Raise (AttributeError "Favorite" "user")
  /\ getattr "Favorite" Favorite.foreign_keys db (to_row x) "owner"
     = Ok (A_Foreign "profileuser" (V_Int (Favorite.owner_id x))).
Proof. destruct x. repeat split; reflexivity. Qed.

(** The same conversion succeeds for a Review, whose method reads the
    fields the class declares. *)
Example Review_str_sample :
  Review.__str__ Sample.externals Sample.database (to_row Sample.review)
  = Ok "profileuser# [profileuser# - Uno(Fiat)]".
Proof. vm_compute. reflexivity. Qed.

Example Booking_str_sample :
  Booking.__str__ Sample.externals Sample.database (to_row Sample.booking)
  = Ok "6 [profileuser# - profileuser# - Uno(Fiat)]".
Proof. vm_compute. reflexivity. Qed.

(** ** The migration *)

Module MigrationFacts.
Import migrations.

Lemma replace_keys {A} (key : string) (f : A -> option A) (l l' : list (string * A)) :
  replace key f l = Some l' -> map fst l' = map fst l.
Proof.
  revert l'. induction l as [|[k v] l IH]; intros l'; simpl.
  - discriminate.
  - destruct (String.eqb k key).
    + destruct (f v); [|discriminate]. intros [= <-]. reflexivity.
    + destruct (replace key f l) as [l''|]; [|discriminate].
      intros [= <-]. simpl. rewrite (IH l'' eq_refl). reflexivity.
Qed.

Lemma replace_get_other {A} (key key' : string) (f : A -> option A)
    (l l' : list (string * A)) :
  replace key f l = Some l' -> key' <> key -> get key' l' = get key' l.
Proof.
  revert l'. induction l as [|[k v] l IH]; intros l'; simpl.
  - discriminate.
  - destruct (String.eqb k key) eqn:Hk.
    + destruct (f v); [|discriminate]. intros [= <-] Hne. simpl.
      apply String.eqb_eq in Hk. subst k.
      destruct (String.eqb key key') eqn:Hk'; [|reflexivity].
      apply String.eqb_eq in Hk'. congruence.
    + destruct (replace key f l) as [l''|]; [|discriminate].
      intros [= <-] Hne. simpl. rewrite (IH l'' eq_refl Hne). reflexivity.
Qed.

Lemma replace_get_same {A} (key : string) (f : A -> option A)
    (l l' : list (string * A)) :
  replace key f l = Some l' ->
  exists v v', get key l = Some v /\ f v = Some v' /\ get key l' = Some v'.
Proof.
  revert l'. induction l as [|[k v] l IH]; intros l'; simpl.
  - discriminate.
  - destruct (String.eqb k key) eqn:Hk.
    + destruct (f v) as [v'|] eqn:Hf; [|discriminate]. intros [= <-].
      exists v, v'. simpl. rewrite Hk. repeat split; congruence.
    + destruct (replace key f l) as [l''|]; [|discriminate].
      intros [= <-]. simpl. rewrite Hk. apply IH. reflexivity.
Qed.

Lemma replace_defined {A} (key : string) (f : A -> option A)
    (l : list (string * A)) (v : A) :
  get key l = Some v -> f v <> None -> replace key f l <> None.
Proof.
  induction l as [|[k v0] l IH]; simpl.
  - discriminate.
  - destruct (String.eqb k key).
    + intros [= ->] Hf. destruct (f v); congruence.
    + intros Hget Hf. specialize (IH Hget Hf).
      destruct (replace key f l); congruence.
Qed.

Lemma replace_undefined {A} (key : string) (f : A -> option A)
    (l : list (string * A)) :
  get key l = None -> replace key f l = None.
Proof.
  induction l as [|[k v0] l IH]; simpl.
  - reflexivity.
  - destruct (String.eqb k key); [discriminate|].
    intros Hget. rewrite (IH Hget). reflexivity.
Qed.

Lemma replace_layout (key : string) (f : list (string * Field) -> option (list (string * Field)))
    (st st' : ProjectState) :
  (forall v v', f v = Some v' -> map fst v' = map fst v) ->
  replace key f st = Some st' -> layout st' = layout st.
Proof.
  intros Hf. unfold layout. revert st'.
  induction st as [|[k v] st IH]; intros st'; simpl.
  - discriminate.
  - destruct (String.eqb k key).
    + destruct (f v) as [v'|] eqn:Hfv; [|discriminate]. intros [= <-].
      simpl. rewrite (Hf v v' Hfv). reflexivity.
    + destruct (replace key f st) as [st''|]; [|discriminate].
      intros [= <-]. simpl. rewrite (IH st'' eq_refl). reflexivity.
Qed.

(** [state_forwards] is defined exactly on a state that has the field;
    there it leaves the models and the names of their fields as they are,
    gives the field its new definition and changes no other field. *)
Lemma AlterField_spec (model_name name : string) (field : Field) (st : ProjectState) :
  (get_field st model_name name = None ->
     state_forwards (AlterField model_name name field) st = None)
  /\ (get_field st model_name name <> None ->
      exists st',
        state_forwards (AlterField model_name name field) st = Some st'
        /\ layout st' = layout st
        /\ get_field st' model_name name = Some field
        /\ forall m f, (m, f) <> (model_name, name) ->
                       get_field st' m f = get_field st m f).
Proof.
  unfold state_forwards, get_field. split.
  - intros Hnone. destruct (get model_name st) as [fields|] eqn:Hm.
    + destruct (replace model_name (replace name (fun _ => Some field)) st)
        as [st'|] eqn:Hr; [|reflexivity].
      destruct (replace_get_same _ _ _ _ Hr) as (v & v' & Hv & Hfv & _).
      rewrite Hm in Hv. injection Hv as <-.
      rewrite (replace_undefined name _ fields Hnone) in Hfv. discriminate.
    + apply replace_undefined. exact Hm.
  - intros Hsome. destruct (get model_name st) as [fields|] eqn:Hm; [|congruence].
    destruct (get name fields) as [old|] eqn:Hold; [|congruence].
    destruct (replace model_name (replace name (fun _ => Some field)) st)
      as [st'|] eqn:Hr.
    + exists st'. split; [reflexivity|].
      destruct (replace_get_same _ _ _ _ Hr) as (v & v' & Hv & Hfv & Hv').
      rewrite Hm in Hv. injection Hv as <-.
      split; [|split].
      * apply (replace_layout _ _ _ _ (fun v v' => replace_keys name _ v v') Hr).
      * rewrite Hv'.
        destruct (replace_get_same _ _ _ _ Hfv) as (o & n & _ & Hn & Hget).
        injection Hn as <-. exact Hget.
      * intros m f Hne.
        destruct (string_dec m model_name) as [-> | Hm'].
        -- rewrite Hv', Hm. apply (replace_get_other _ _ _ _ _ Hfv). congruence.
        -- rewrite (replace_get_other _ m _ _ _ Hr Hm'). reflexivity.
    + exfalso. revert Hr. apply (replace_defined _ _ _ fields Hm).
      apply (replace_defined _ _ _ old Hold). discriminate.
Qed.

End MigrationFacts.

(** C6, as stated, fails: an [AlterField] carries a whole field and puts it
    in the place of the old one, so what the old definition had besides a
    default is lost. On the sample schema [created_at] of Rental is declared
    with [auto_now_add=True], and after the migration it is not. *)
Lemma migration_alters_more_than_defaults :
  migrations.get_field Sample.state "rental" "created_at"
  = Some (migrations.mkField "DateTimeField"
            [("auto_now_add", migrations.constant (V_Bool true))])
  /\ (exists st',
        migrations.apply Migration.operations Sample.state = Some st'
        /\ migrations.get_field st' "rental" "created_at"
           = Some (migrations.mkField "DateTimeField"
                     [("default", migrations.callable "django.utils.timezone.now")])
        /\ option_map besides_default (migrations.get_field st' "rental" "created_at")
           <> option_map besides_default
                (migrations.get_field Sample.state "rental" "created_at"))
  /\ ~ alters_defaults_only Migration.operations.
Proof.
  split; [reflexivity|]. split.
  - eexists. split; [reflexivity|]. split; [reflexivity|].
    vm_compute. discriminate.
  - intros Hall.
    pose proof (Hall Sample.state _ eq_refl "rental" "created_at") as Hsame.
    vm_compute in Hsame. discriminate.
Qed.

(** C6, amended. The migration consists of two operations, and both alter a
    field: [created_at] of Rental and [created_at] of Review, each
    redefined as a [DateTimeField] whose only argument is the default, the
    function [django.utils.timezone.now]. Applied to a schema that has the
    two fields it succeeds, the two fields take that definition as a whole,
    whatever they were before, and the models, the names of their fields
    and the definition of every other field stay as they were. *)
Theorem migration_alters_two_defaults :
  let now_field :=
    migrations.mkField "DateTimeField"
      [("default", migrations.callable "django.utils.timezone.now")] in
  map migrations.target Migration.operations
  = [("rental", "created_at"); ("review", "created_at")]
  /\ map migrations.new_field Migration.operations = [now_field; now_field]
  /\ forall st : migrations.ProjectState,
       migrations.get_field st "rental" "created_at" <> None ->
       migrations.get_field st "review" "created_at" <> None ->
       exists st',
         migrations.apply Migration.operations st = Some st'
         /\ migrations.layout st' = migrations.layout st
         /\ migrations.get_field st' "rental" "created_at" = Some now_field
         /\ migrations.get_field st' "review" "created_at" = Some now_field
         /\ forall m f,
              (m, f) <> ("rental", "created_at") ->
              (m, f) <> ("review", "created_at") ->
              migrations.get_field st' m f = migrations.get_field st m f.
Proof.
  cbv zeta. split; [reflexivity|]. split; [reflexivity|].
  intros st Hrental Hreview.
  unfold Migration.operations, migrations.apply.
  destruct (MigrationFacts.AlterField_spec "rental" "created_at"
              (migrations.mkField "DateTimeField"
                 [("default", migrations.callable "django.utils.timezone.now")]) st)
    as [_ Hfirst].
  destruct (Hfirst Hrental) as (st1 & -> & Hlayout1 & Hset1 & Hother1).
  destruct (MigrationFacts.AlterField_spec "review" "created_at"
              (migrations.mkField "DateTimeField"
                 [("default", migrations.callable "django.utils.timezone.now")]) st1)
    as [_ Hsecond].
  assert (Hreview1 : migrations.get_field st1 "review" "created_at" <> None).
  { rewrite Hother1; [exact Hreview | discriminate]. }
  destruct (Hsecond Hreview1) as (st2 & -> & Hlayout2 & Hset2 & Hother2).
  exists st2. split; [reflexivity|].
  split; [congruence|].
  split; [rewrite Hother2; [exact Hset1 | discriminate]|].
  split; [exact Hset2|].
  intros m f H1 H2. rewrite (Hother2 m f H2). apply Hother1. exact H1.
Qed.

Lemma migration_alters_two_defaults_witness :
  migrations.get_field Sample.state "rental" "created_at" <> None
  /\ migrations.get_field Sample.state "review" "created_at" <> None
  /\ exists st',
       migrations.apply Migration.operations Sample.state = Some st'
       /\ migrations.layout st' = migrations.layout Sample.state.
Proof.
  split; [discriminate|]. split; [discriminate|].
  destruct (proj2 (proj2 migration_alters_two_defaults) Sample.state)
    as (st' & Happly & Hlayout & _); [discriminate | discriminate |].
  exists st'. split; assumption.
Defined.

(** On the sample schema: the two definitions are replaced, [auto_now_add]
    goes with them, and nothing else changes. *)
Example migration_sample :
  migrations.apply Migration.operations Sample.state
  = Some
      [ ("rental",
         [ ("id", migrations.mkField "BigAutoField"
                    [("primary_key", migrations.constant (V_Bool true))]);
           ("created_at", migrations.mkField "DateTimeField"
                    [("default", migrations.callable "django.utils.timezone.now")]) ]);
        ("review",
         [ ("created_at", migrations.mkField "DateTimeField"
                    [("default", migrations.callable "django.utils.timezone.now")]);
           ("comment", migrations.mkField "CharField"
                    [("max_length", migrations.constant (V_Int 50))]) ]) ].
Proof. reflexivity. Qed.

(** * Further properties of the module *)

(** ** What a save writes *)

Ltac cases_by laws :=
  match goal with
  | |- context [Model_save ?self ?w] =>
      let H := fresh "Hcases" in
      let Heq := fresh "Heq" in
      pose proof (Model_save_cases laws self w) as H;
      destruct (Model_save self w); unfold ret; intros Heq;
      injection Heq as <- <-; exact H
  end.

Lemma save_cases_eq (e e' : Timestamped) (w w' : World) :
  save e w = (e', w') ->
  is_row_of e' (stored e') = true
  /\ ((existsb (is_row_of e') (rows w) = true
       /\ rows w' = map (fun r' => if is_row_of e' r' then stored e' else r') (rows w))
      \/ (existsb (is_row_of e') (rows w) = false
          /\ rows w' = rows w ++ [stored e'])).
Proof.
  unfold is_row_of.
  destruct e as [x|x|x|x|x];
    unfold save, Rental.save, Review.save, Favorite.save, Payment.save, Booking.save;
    unfold bind, timezone_now.
  - cases_by Rental_laws.
  - cases_by Review_laws.
  - cases_by Favorite_laws.
  - destruct (negb (truthy (Payment.payment_hash x)));
      [destruct (uuid.uuid4 w) as [u w1] eqn:Hu | ]; unfold ret at 1.
    + assert (Hrows : rows w1 = rows w).
      { unfold uuid.uuid4, bind, os_urandom, ret in Hu. injection Hu as _ <-. reflexivity. }
      rewrite <- Hrows. cases_by Payment_laws.
    + cases_by Payment_laws.
  - cases_by Booking_laws.
Qed.

Lemma save_cases (e : Timestamped) (w : World) :
  let e' := fst (save e w) in
  let w' := snd (save e w) in
  is_row_of e' (stored e') = true
  /\ ((existsb (is_row_of e') (rows w) = true
       /\ rows w' = map (fun r' => if is_row_of e' r' then stored e' else r') (rows w))
      \/ (existsb (is_row_of e') (rows w) = false
          /\ rows w' = rows w ++ [stored e'])).
Proof.
  cbv zeta. destruct (save e w) as [e' w'] eqn:Hsave.
  exact (save_cases_eq _ _ _ _ Hsave).
Qed.

Lemma existsb_false_forall {A} (f : A -> bool) (l : list A) (x : A) :
  existsb f l = false -> In x l -> f x = false.
Proof.
  intros Hex Hin. destruct (f x) eqn:Hfx; [|reflexivity].
  assert (Ht : existsb f l = true) by (apply existsb_exists; exists x; split; assumption).
  congruence.
Qed.

(** X1. A save writes to no record but the one of the instance: a row of
    any other record is in the database afterwards exactly when it was
    there before, and the number of rows never shrinks and grows by one at
    most. *)
Theorem save_touches_no_other_record (e : Timestamped) (w : World) :
  let e' := fst (save e w) in
  let w' := snd (save e w) in
  (forall r, is_row_of e' r = false -> (In r (rows w') <-> In r (rows w)))
  /\ (List.length (rows w) <= List.length (rows w') <= List.length (rows w) + 1)%nat.
Proof.
  cbv zeta. destruct (save_cases e w) as [Hown [[_ Hrows] | [_ Hrows]]];
    rewrite Hrows.
  - split.
    + intros r Hother. rewrite in_map_iff. split.
      * intros [r0 [Heq Hin]].
        destruct (is_row_of (fst (save e w)) r0) eqn:Hr0; congruence.
      * intros Hin. exists r. rewrite Hother. tauto.
    + rewrite length_map. lia.
  - split.
    + intros r Hother. rewrite in_app_iff. split.
      * intros [Hin | [<- | []]]; [exact Hin | congruence].
      * intros Hin. left. exact Hin.
    + rewrite length_app. simpl. lia.
Qed.

Lemma hexdigest_truthy (msg : bytes) : truthy (SHA256.hexdigest msg) = true.
Proof.
  pose proof (hexdigest_length msg) as Hlen.
  destruct (SHA256.hexdigest msg); [discriminate | reflexivity].
Qed.

(** What a save does to the key: a key that is set stays, an automatic
    [id] that is unset becomes the next one of the table, and afterwards
    the key is set. *)
Lemma save_pk (e : Timestamped) (w : World) :
  let e' := fst (save e w) in
  row_model (stored e') = row_model (stored e)
  /\ (has_pk e = true -> row_pk (stored e') = row_pk (stored e))
  /\ (row_pk (stored e) = V_None ->
      row_pk (stored e')
      = V_Int (1 + fold_left (max_id (row_model (stored e))) (rows w) 0))
  /\ has_pk e' = true.
Proof.
  destruct w as [clk tk en dr db].
  destruct e as [x|x|x|x|x]; destruct x; unfold has_pk; run_save;
    try match goal with
        | |- context [truthy ?s] => destruct s; cbn [truthy negb]
        end;
    split_save;
    cbn [stored to_row row_model row_pk fst snd rows
         Rental.Rental_Model Review.Review_Model Favorite.Favorite_Model
         Payment.Payment_Model Booking.Booking_Model
         Rental.to_row_ Review.to_row_ Favorite.to_row_ Payment.to_row_
         Booking.to_row_ Rental.id Review.id Favorite.id Booking.id
         Payment.payment_hash option_value truthy];
    repeat split; try reflexivity; try discriminate; try apply hexdigest_truthy.
Qed.

Lemma record_of_same (r1 r2 : Row) :
  same_record r1 r2 = true <-> record_of r2 = record_of r1.
Proof.
  unfold same_record, record_of. rewrite has_key_spec. split.
  - intros [-> ->]. reflexivity.
  - intros [= -> ->]. split; reflexivity.
Qed.

Lemma records_updated (r : Row) (db : Database) :
  map record_of (map (fun r' => if same_record r r' then r else r') db)
  = map record_of db.
Proof.
  rewrite map_map. apply map_ext. intros r'.
  destruct (same_record r r') eqn:Hsame; [|reflexivity].
  apply record_of_same in Hsame. congruence.
Qed.

Lemma distinct_keys_app (db : Database) (r : Row) :
  distinct_keys db -> existsb (same_record r) db = false -> distinct_keys (db ++ [r]).
Proof.
  unfold distinct_keys. intros Hdb Hex. rewrite map_app. cbn [map].
  apply NoDup_app; [exact Hdb | repeat constructor; intros [] | ].
  intros k Hin [<- | []].
  apply in_map_iff in Hin. destruct Hin as [r' [Hk Hin]].
  pose proof (existsb_false_forall _ _ _ Hex Hin) as Hno.
  apply record_of_same in Hk. congruence.
Qed.

(** Distinct keys leave no two rows of one record, equal or not. *)
Lemma distinct_keys_unique (db : Database) : distinct_keys db -> unique_keys db.
Proof.
  unfold distinct_keys, unique_keys.
  induction db as [|a db IH]; intros Hnd r1 r2 H1 H2 Hsame; [destruct H1|].
  cbn [map] in Hnd. apply NoDup_cons_iff in Hnd. destruct Hnd as [Hout Hnd].
  apply record_of_same in Hsame.
  destruct H1 as [<- | H1]; destruct H2 as [<- | H2].
  - reflexivity.
  - exfalso. apply Hout. rewrite <- Hsame. apply in_map. exact H2.
  - exfalso. apply Hout. rewrite Hsame. apply in_map. exact H1.
  - apply (IH Hnd r1 r2 H1 H2). apply record_of_same. exact Hsame.
Qed.

(** X4. Saving keeps primary keys unique: when no two rows of the database
    belong to the same record before a save, none do after it. *)
Theorem save_keeps_keys_unique (e : Timestamped) (w : World) :
  distinct_keys (rows w) -> distinct_keys (rows (snd (save e w))).
Proof.
  intros Hdb.
  destruct (save_cases e w) as [_ [[_ Hrows] | [Hex Hrows]]]; rewrite Hrows.
  - pose proof (records_updated (stored (fst (save e w))) (rows w)) as Hsame.
    unfold distinct_keys, is_row_of. unfold same_record in Hsame.
    rewrite Hsame. exact Hdb.
  - apply distinct_keys_app; assumption.
Qed.

Lemma Sample_unique_keys : unique_keys (rows Sample.populated).
Proof.
  intros r1 r2 H1 H2 Hsame.
  unfold Sample.populated, Sample.database in H1, H2. cbn [rows] in H1, H2.
  repeat (destruct H1 as [H1 | H1]; [subst r1 | ]); try contradiction;
    repeat (destruct H2 as [H2 | H2]; [subst r2 | ]); try contradiction;
    first [reflexivity | vm_compute in Hsame; discriminate].
Qed.

Lemma Sample_distinct_keys : distinct_keys (rows Sample.populated).
Proof.
  unfold distinct_keys.
  assert (Hkeys : map record_of (rows Sample.populated)
                  = [("brand", V_Int 1); ("car", V_Int 7); ("car", V_Int 8);
                     ("rental", V_Int 3); ("review", V_Int 4); ("favorite", V_Int 5);
                     ("booking", V_Int 6); ("booking_payments", V_Int 1)])
    by (vm_compute; reflexivity).
  rewrite Hkeys.
  repeat (constructor;
          [intros Hin; repeat (destruct Hin as [Hin | Hin]; [discriminate Hin|]);
           exact Hin|]).
  constructor.
Qed.

Lemma save_keeps_keys_unique_witness :
  distinct_keys (rows Sample.populated)
  /\ distinct_keys (rows (snd (save (E_Payment Sample.payment) Sample.populated))).
Proof.
  split; [exact Sample_distinct_keys|].
  exact (save_keeps_keys_unique (E_Payment Sample.payment) Sample.populated
           Sample_distinct_keys).
Defined.

(** X5. A save changes no field of the instance but [updated_at], an [id]
    that was unset and, for a Payment, a hash that was empty: an [id] that
    is set and a hash that is not empty stay, and so does every other
    field. *)
Theorem save_keeps_other_fields :
  (forall (x : Rental.t) (w : World),
     let x' := fst (Rental.save x w) in
     x' = Rental.mk (Rental.id x') (Rental.owner_id x) (Rental.car_id x)
            (Rental.rent_type x) (Rental.rent_value x) (Rental.created_at x)
            (Rental.updated_at x')
     /\ forall k, Rental.id x = Some k -> Rental.id x' = Some k)
  /\ (forall (x : Review.t) (w : World),
        let x' := fst (Review.save x w) in
        x' = Review.mk (Review.id x') (Review.reviewer_id x) (Review.rental_id x)
               (Review.stars x) (Review.comment x) (Review.created_at x)
               (Review.updated_at x')
        /\ forall k, Review.id x = Some k -> Review.id x' = Some k)
  /\ (forall (x : Favorite.t) (w : World),
        let x' := fst (Favorite.save x w) in
        x' = Favorite.mk (Favorite.id x') (Favorite.owner_id x) (Favorite.rental_id x)
               (Favorite.created_at x) (Favorite.updated_at x')
        /\ forall k, Favorite.id x = Some k -> Favorite.id x' = Some k)
  /\ (forall (x : Payment.t) (w : World),
        let x' := fst (Payment.save x w) in
        x' = Payment.mk (Payment.owner_id x) (Payment.receiver_id x)
               (Payment.payment_type x) (Payment.payment_hash x')
               (Payment.payment_status x) (Payment.amount x)
               (Payment.description x) (Payment.bill_date x)
               (Payment.created_at x) (Payment.updated_at x')
        /\ (Payment.payment_hash x <> "" ->
            Payment.payment_hash x' = Payment.payment_hash x))
  /\ (forall (x : Booking.t) (w : World),
        let x' := fst (Booking.save x w) in
        x' = Booking.mk (Booking.id x') (Booking.renter_id x) (Booking.rental_id x)
               (Booking.location_id x) (Booking.rent_date x) (Booking.return_date x)
               (Booking.created_at x) (Booking.updated_at x')
        /\ forall k, Booking.id x = Some k -> Booking.id x' = Some k).
Proof.
  split; [|split; [|split; [|split]]];
    intros x w; destruct w as [clk tk en dr db]; destruct x; run_save;
    try match goal with
        | |- context [truthy ?s] => destruct s; cbn [truthy negb]
        end;
    split_save;
    (split; [reflexivity | first [intros k Hk; exact Hk
                                 | intros k Hk; discriminate Hk
                                 | intros Hne; reflexivity
                                 | intros Hne; exfalso; apply Hne; reflexivity]]).
Qed.

(** The time of creation is not after the time of the save, when the
    creation read the clock no later than the save does. *)
Lemma created_before_updated (e : Timestamped) (w : World) (i : nat) :
  monotone (clock w) ->
  (i <= ticks w)%nat ->
  created_at e = clock w i ->
  exists t, updated_at (fst (save e w)) = Some t /\ created_at (fst (save e w)) <= t.
Proof.
  intros Hmono Hi Hcreated.
  destruct (save_spec e w) as (_ & _ & _ & Hticks & Hupd & Hkeep).
  eexists. split; [exact Hupd|]. rewrite Hkeep, Hcreated. apply Hmono. lia.
Qed.

(** X6. An instance that is created without a [created_at], which then is
    the time at that moment, and saved afterwards has
    [created_at <= updated_at], as long as the clock never goes back. *)
Theorem created_at_le_updated_at (w : World) :
  monotone (clock w) ->
  (forall owner car rent_type rent_value,
     let x := fst (Rental.__init__ owner car rent_type rent_value None w) in
     let w1 := snd (Rental.__init__ owner car rent_type rent_value None w) in
     exists t, Rental.updated_at (fst (Rental.save x w1)) = Some t
               /\ Rental.created_at (fst (Rental.save x w1)) <= t)
  /\ (forall reviewer rental stars comment,
        let x := fst (Review.__init__ reviewer rental stars comment None w) in
        let w1 := snd (Review.__init__ reviewer rental stars comment None w) in
        exists t, Review.updated_at (fst (Review.save x w1)) = Some t
                  /\ Review.created_at (fst (Review.save x w1)) <= t)
  /\ (forall owner rental,
        let x := fst (Favorite.__init__ owner rental None w) in
        let w1 := snd (Favorite.__init__ owner rental None w) in
        exists t, Favorite.updated_at (fst (Favorite.save x w1)) = Some t
                  /\ Favorite.created_at (fst (Favorite.save x w1)) <= t)
  /\ (forall owner receiver ptype phash pstatus amount description bill_date,
        let x := fst (Payment.__init__ owner receiver ptype phash pstatus amount
                        description bill_date None w) in
        let w1 := snd (Payment.__init__ owner receiver ptype phash pstatus amount
                         description bill_date None w) in
        exists t, Payment.updated_at (fst (Payment.save x w1)) = Some t
                  /\ Payment.created_at (fst (Payment.save x w1)) <= t)
  /\ (forall renter rental location rent_date return_date,
        let x := fst (Booking.__init__ renter rental location rent_date return_date
                        None w) in
        let w1 := snd (Booking.__init__ renter rental location rent_date return_date
                         None w) in
        exists t, Booking.updated_at (fst (Booking.save x w1)) = Some t
                  /\ Booking.created_at (fst (Booking.save x w1)) <= t).
Proof.
  intros Hmono.
  assert (Hstep : forall (e : Timestamped) (w1 : World),
            clock w1 = clock w -> ticks w1 = S (ticks w) ->
            created_at e = clock w (ticks w) ->
            exists t, updated_at (fst (save e w1)) = Some t
                      /\ created_at (fst (save e w1)) <= t).
  { intros e w1 Hclock Hticks Hcreated.
    apply (created_before_updated e w1 (ticks w)).
    - rewrite Hclock. exact Hmono.
    - lia.
    - rewrite Hclock. exact Hcreated. }
  split; [|split; [|split; [|split]]]; intros; cbv zeta.
  - match goal with
    | |- context [Rental.save ?x ?w1] =>
        pose proof (Hstep (E_Rental x) w1 eq_refl eq_refl eq_refl) as H;
        unfold save in H; unfold bind at 1 2 in H;
        destruct (Rental.save x w1); exact H
    end.
  - match goal with
    | |- context [Review.save ?x ?w1] =>
        pose proof (Hstep (E_Review x) w1 eq_refl eq_refl eq_refl) as H;
        unfold save in H; unfold bind at 1 2 in H;
        destruct (Review.save x w1); exact H
    end.
  - match goal with
    | |- context [Favorite.save ?x ?w1] =>
        pose proof (Hstep (E_Favorite x) w1 eq_refl eq_refl eq_refl) as H;
        unfold save in H; unfold bind at 1 2 in H;
        destruct (Favorite.save x w1); exact H
    end.
  - match goal with
    | |- context [Payment.save ?x ?w1] =>
        pose proof (Hstep (E_Payment x) w1 eq_refl eq_refl eq_refl) as H;
        unfold save in H; unfold bind at 1 2 in H;
        destruct (Payment.save x w1); exact H
    end.
  - match goal with
    | |- context [Booking.save ?x ?w1] =>
        pose proof (Hstep (E_Booking x) w1 eq_refl eq_refl eq_refl) as H;
        unfold save in H; unfold bind at 1 2 in H;
        destruct (Booking.save x w1); exact H
    end.
Qed.

Lemma created_at_le_updated_at_witness :
  monotone (clock Sample.populated)
  /\ exists t,
       Rental.updated_at
         (fst (Rental.save
                 (fst (Rental.__init__ 11 8 None 9000 None Sample.populated))
                 (snd (Rental.__init__ 11 8 None 9000 None Sample.populated))))
       = Some t
       /\ Rental.created_at
            (fst (Rental.save
                    (fst (Rental.__init__ 11 8 None 9000 None Sample.populated))
                    (snd (Rental.__init__ 11 8 None 9000 None Sample.populated))))
          <= t.
Proof.
  split; [exact Sample_clock_monotone|].
  exact (proj1 (created_at_le_updated_at Sample.populated Sample_clock_monotone)
               11 8 None 9000).
Defined.

(** ** What a delete removes and what it keeps *)

Lemma cascades_from_inv (sch : list ForeignKey) (parent r : Row) :
  cascades_from sch parent r = true ->
  exists fk,
    In fk sch
    /\ fk_model fk = row_model r
    /\ fk_to fk = row_model parent
    /\ fk_on_delete fk = CASCADE
    /\ column (attname (fk_field fk)) (row_columns r) = Some (row_pk parent).
Proof.
  unfold cascades_from. intros H. apply existsb_exists in H.
  destruct H as [fk [Hin H]]. exists fk. split; [exact Hin|].
  repeat (apply andb_true_iff in H; destruct H as [H ?]).
  apply String.eqb_eq in H.
  match goal with Hto : String.eqb (fk_to fk) _ = true |- _ =>
    apply String.eqb_eq in Hto end.
  destruct (column (attname (fk_field fk)) (row_columns r)) as [key|]; [|discriminate].
  match goal with Hk : Value_eqb key _ = true |- _ =>
    apply Value_eqb_eq in Hk; subst key end.
  destruct (fk_on_delete fk); [|discriminate].
  repeat split; assumption.
Qed.

(** Whatever holds of the object that is deleted and passes from a row to
    the rows of the database that cascade from it holds of every row that
    is collected. *)
Lemma collect_invariant (sch : list ForeignKey) (db : Database) (P : Row -> Prop) :
  (forall parent r,
     P parent -> In r db -> cascades_from sch parent r = true -> P r) ->
  forall (n : nat) (collected : list Row),
    (forall r, In r collected -> P r) ->
    forall r, In r (collect n sch db collected) -> P r.
Proof.
  intros Hstep. induction n as [|n IH]; intros collected Hall r Hin; simpl in Hin.
  - apply Hall. exact Hin.
  - apply (IH (collect_related sch db collected)); [|exact Hin].
    intros r0 Hr0. unfold collect_related in Hr0. apply in_app_or in Hr0.
    destruct Hr0 as [Hr0 | Hr0]; [apply Hall; exact Hr0|].
    unfold added in Hr0. apply filter_In in Hr0. destruct Hr0 as [Hdb Hf].
    apply andb_true_iff in Hf. destruct Hf as [_ Hp].
    apply existsb_exists in Hp. destruct Hp as [parent [Hpin Hc]].
    exact (Hstep parent r0 (Hall parent Hpin) Hdb Hc).
Qed.

Lemma doomed_invariant (obj : Row) (db : Database) (P : Row -> Prop) :
  P obj ->
  (forall parent r,
     P parent -> In r db -> cascades_from schema parent r = true -> P r) ->
  forall r, In r (doomed obj db) -> P r.
Proof.
  intros Hobj Hstep. unfold doomed.
  apply (collect_invariant schema db P Hstep).
  intros r [<- | []]. exact Hobj.
Qed.

(** A row of the database is kept by a delete when no collected row is the
    same record. *)
Lemma kept_by_delete (obj r : Row) (w : World) :
  In r (rows w) ->
  (forall d, In d (doomed obj (rows w)) -> same_record r d = false) ->
  In r (rows (snd (delete obj w))).
Proof.
  intros Hin Hno. rewrite delete_rows. apply filter_In. split; [exact Hin|].
  apply negb_true_iff.
  destruct (existsb (same_record r) (doomed obj (rows w))) eqn:Hex; [|reflexivity].
  apply existsb_exists in Hex. destruct Hex as [d [Hd Hsame]].
  rewrite (Hno d Hd) in Hsame. discriminate.
Qed.

Lemma same_record_model (r d : Row) :
  same_record r d = true -> row_model d = row_model r.
Proof. intros H. apply has_key_spec in H. tauto. Qed.

Ltac each_foreign_key Hin :=
  unfold schema, Brand.foreign_keys, Car.foreign_keys, Rental.foreign_keys,
    Review.foreign_keys, Favorite.foreign_keys, Payment.foreign_keys,
    Booking.foreign_keys, Booking.payments_foreign_keys in Hin;
  cbn [app] in Hin;
  repeat (destruct Hin as [Hin | Hin]; [subst | ]); [ .. | contradiction ].

(** The models a cascade from a Rental reaches. *)
Lemma from_Rental_models (parent r : Row) :
  In (row_model parent) ["rental"; "review"; "favorite"; "booking"; "booking_payments"] ->
  cascades_from schema parent r = true ->
  In (row_model r) ["rental"; "review"; "favorite"; "booking"; "booking_payments"].
Proof.
  intros Hp Hc. apply cascades_from_inv in Hc.
  destruct Hc as (fk & Hin & Hm & Hto & _ & _).
  rewrite <- Hm. rewrite <- Hto in Hp. clear Hm Hto.
  each_foreign_key Hin; cbn [fk_model fk_to] in *;
    first [ now (cbn; tauto)
          | exfalso; cbn in Hp; intuition discriminate ].
Qed.



(** A delete whose collection stays within the models [ms] keeps every row
    of another model. *)
Lemma delete_keeps_other_models (obj r : Row) (w : World) (ms : list string) :
  In (row_model obj) ms ->
  (forall parent child,
     In (row_model parent) ms -> cascades_from schema parent child = true ->
     In (row_model child) ms) ->
  In r (rows w) ->
  ~ In (row_model r) ms ->
  In r (rows (snd (delete obj w))).
Proof.
  intros Hobj Hstep Hin Hout. apply kept_by_delete; [exact Hin|].
  intros d Hd. destruct (same_record r d) eqn:Hsame; [|reflexivity].
  exfalso. apply Hout. rewrite <- (same_record_model _ _ Hsame).
  apply (doomed_invariant obj (rows w) (fun x => In (row_model x) ms)); try assumption.
  intros parent child Hp _ Hc. exact (Hstep parent child Hp Hc).
Qed.

(** X7. A delete leaves no dangling reference: when a row that is kept
    refers, through a cascading key, to a row that was in the database,
    that row is kept too. *)
Theorem delete_leaves_no_dangling_reference (obj parent r : Row) (w : World) :
  In r (rows (snd (delete obj w))) ->
  In parent (rows w) ->
  cascades_from schema parent r = true ->
  In parent (rows (snd (delete obj w))).
Proof.
  intros Hr Hparent Hc. rewrite delete_rows. apply filter_In.
  split; [exact Hparent|]. apply negb_true_iff.
  destruct (existsb (same_record parent) (doomed obj (rows w))) eqn:Hex; [|reflexivity].
  rewrite (delete_leaves_no_orphan obj parent r w Hex Hr) in Hc. discriminate.
Qed.

Lemma delete_leaves_no_dangling_reference_witness :
  In (to_row Sample.car) (rows (snd (delete (to_row Sample.rental) Sample.populated)))
  /\ In (to_row Sample.brand) (rows Sample.populated)
  /\ cascades_from schema (to_row Sample.brand) (to_row Sample.car) = true
  /\ In (to_row Sample.brand)
        (rows (snd (delete (to_row Sample.rental) Sample.populated))).
Proof.
  assert (H1 : In (to_row Sample.car)
                 (rows (snd (delete (to_row Sample.rental) Sample.populated)))).
  { rewrite delete_Rental_sample. right. left. reflexivity. }
  assert (H2 : In (to_row Sample.brand) (rows Sample.populated))
    by (left; reflexivity).
  assert (H3 : cascades_from schema (to_row Sample.brand) (to_row Sample.car) = true)
    by (vm_compute; reflexivity).
  split; [exact H1|]. split; [exact H2|]. split; [exact H3|].
  exact (delete_leaves_no_dangling_reference _ _ _ _ H1 H2 H3).
Defined.

(** X8. Deleting a Rental keeps every Brand, every Car and every Payment:
    the cascade goes down to reviews, favorites, bookings and their payment
    links, never up to the car or across to the payments. *)
Theorem delete_Rental_keeps_Cars_and_Payments (w : World) (x : Rental.t) (r : Row) :
  In r (rows w) ->
  In (row_model r) ["brand"; "car"; "payment"] ->
  In r (rows (snd (delete (to_row x) w))).
Proof.
  intros Hin Hmodel.
  apply (delete_keeps_other_models (to_row x) r w
           ["rental"; "review"; "favorite"; "booking"; "booking_payments"]).
  - left. reflexivity.
  - exact from_Rental_models.
  - exact Hin.
  - intros Hbad. cbn [In] in Hmodel, Hbad.
    intuition congruence.
Qed.

Lemma delete_Rental_keeps_Cars_and_Payments_witness :
  In (to_row Sample.car) (rows Sample.populated)
  /\ In (row_model (to_row Sample.car)) ["brand"; "car"; "payment"]
  /\ In (to_row Sample.car)
        (rows (snd (delete (to_row Sample.rental) Sample.populated))).
Proof.
  assert (H1 : In (to_row Sample.car) (rows Sample.populated))
    by (right; left; reflexivity).
  assert (H2 : In (row_model (to_row Sample.car)) ["brand"; "car"; "payment"])
    by (right; left; reflexivity).
  split; [exact H1|]. split; [exact H2|].
  exact (delete_Rental_keeps_Cars_and_Payments Sample.populated Sample.rental _ H1 H2).
Defined.





Lemma nothing_cascades_from_leaf (obj r : Row) :
  In (row_model obj) ["review"; "favorite"; "booking_payments"] ->
  cascades_from schema obj r = false.
Proof.
  intros Hleaf. destruct (cascades_from schema obj r) eqn:Hc; [|reflexivity].
  exfalso. apply cascades_from_inv in Hc.
  destruct Hc as (fk & Hin & _ & Hto & _ & _).
  rewrite <- Hto in Hleaf. clear Hto.
  each_foreign_key Hin; cbn in Hleaf; intuition discriminate.
Qed.

Lemma doomed_leaf (obj : Row) (db : Database) :
  In (row_model obj) ["review"; "favorite"; "booking_payments"] ->
  doomed obj db = [obj].
Proof.
  intros Hleaf. unfold doomed. apply closed_collect.
  apply nothing_added_closed. apply filter_nil. intros r _.
  cbn [existsb]. rewrite (nothing_cascades_from_leaf obj r Hleaf).
  rewrite orb_false_r. apply andb_false_r.
Qed.

(** X10. Nothing refers to a Review or to a Favorite, so deleting one
    removes its record and nothing else: the rows afterwards are the rows
    before that are not that record. *)
Theorem delete_Review_or_Favorite_removes_only_it (w : World) :
  (forall (x : Review.t) (r : Row),
     In r (rows (snd (delete (to_row x) w)))
     <-> In r (rows w) /\ same_record r (to_row x) = false)
  /\ (forall (x : Favorite.t) (r : Row),
        In r (rows (snd (delete (to_row x) w)))
        <-> In r (rows w) /\ same_record r (to_row x) = false).
Proof.
  split; intros x r; rewrite delete_rows, doomed_leaf, filter_In;
    try (cbn; tauto); cbn [existsb]; rewrite orb_false_r, negb_true_iff; tauto.
Qed.

(** What deleting the brand with the key [k] collects: the brand, cars of
    the database whose [brand] is [k], and rows below the cars. *)
Lemma doomed_by_Brand (b : Brand.t) (k : Z) (db : Database) (d : Row) :
  Brand.id b = Some k ->
  In d (doomed (to_row b) db) ->
  d = to_row b
  \/ (In d db /\ row_model d = "car"
      /\ column "brand_id" (row_columns d) = Some (V_Int k))
  \/ In (row_model d) ["rental"; "review"; "favorite"; "booking"; "booking_payments"].
Proof.
  intros Hid. revert d.
  apply (doomed_invariant (to_row b) db
           (fun d => d = to_row b
                     \/ (In d db /\ row_model d = "car"
                         /\ column "brand_id" (row_columns d) = Some (V_Int k))
                     \/ In (row_model d)
                          ["rental"; "review"; "favorite"; "booking"; "booking_payments"])).
  - left. reflexivity.
  - intros parent r [-> | [(_ & Hcar & _) | Hbelow]] Hr Hc.
    + apply cascades_from_inv in Hc.
      destruct Hc as (fk & Hin & Hm & Hto & _ & Hcol).
      destruct b as [bid bname bimage]. cbn [Brand.id] in Hid. subst bid.
      cbn [to_row Brand.Brand_Model Brand.to_row_ row_model row_pk option_value
           Brand.id] in Hto, Hcol.
      right. left. split; [exact Hr|]. rewrite <- Hm.
      each_foreign_key Hin; cbn [fk_model fk_to] in *; try discriminate Hto.
      split; [reflexivity | exact Hcol].
    + right. right. apply cascades_from_inv in Hc.
      destruct Hc as (fk & Hin & Hm & Hto & _ & _).
      rewrite <- Hm. rewrite Hcar in Hto. clear Hm.
      each_foreign_key Hin; cbn [fk_model fk_to] in *; try discriminate Hto.
      left. reflexivity.
    + right. right. exact (from_Rental_models parent r Hbelow Hc).
Qed.

(** X11. Deleting a Brand keeps the cars of the other brands, in a
    database whose primary keys are unique. *)
Theorem delete_Brand_keeps_other_Cars (w : World) (b : Brand.t) (k : Z) (c : Car.t) :
  unique_keys (rows w) ->
  Brand.id b = Some k ->
  Car.brand_id c <> k ->
  In (to_row c) (rows w) ->
  In (to_row c) (rows (snd (delete (to_row b) w))).
Proof.
  intros Hu Hid Hother Hin. apply kept_by_delete; [exact Hin|].
  intros d Hd. destruct (same_record (to_row c) d) eqn:Hsame; [|reflexivity].
  exfalso. pose proof (same_record_model _ _ Hsame) as Hm.
  assert (Hcar : row_model (to_row c) = "car") by (destruct c; reflexivity).
  rewrite Hcar in Hm.
  destruct (doomed_by_Brand b k (rows w) d Hid Hd) as [-> | [(Hdb & _ & Hcol) | Hbelow]].
  - destruct b. discriminate Hm.
  - pose proof (Hu (to_row c) d Hin Hdb Hsame) as <-.
    destruct c. cbn in Hcol, Hother. congruence.
  - rewrite Hm in Hbelow. cbn in Hbelow. intuition discriminate.
Qed.

Lemma delete_Brand_keeps_other_Cars_witness :
  unique_keys (rows Sample.populated)
  /\ Brand.id Sample.brand = Some 1
  /\ Car.brand_id Sample.other_car <> 1
  /\ In (to_row Sample.other_car) (rows Sample.populated)
  /\ In (to_row Sample.other_car)
        (rows (snd (delete (to_row Sample.brand) Sample.populated))).
Proof.
  assert (Hother : Car.brand_id Sample.other_car <> 1) by discriminate.
  assert (Hin : In (to_row Sample.other_car) (rows Sample.populated))
    by (do 2 right; left; reflexivity).
  split; [exact Sample_unique_keys|]. split; [reflexivity|].
  split; [exact Hother|]. split; [exact Hin|].
  exact (delete_Brand_keeps_other_Cars Sample.populated Sample.brand 1
           Sample.other_car Sample_unique_keys eq_refl Hother Hin).
Defined.

(** ** String conversion of the other models *)

(** X12. [Car.__str__] is the name of the car followed by the name of its
    brand in parentheses. It reads the brand from the database: when the
    brand of the car is not there it raises [DoesNotExist]. *)
Theorem Car_str (ext : Externals) (db : Database) (c : Car.t) :
  (forall b : Brand.t,
     fetch db "brand" (V_Int (Car.brand_id c)) = Some (to_row b) ->
     Car.__str__ ext db (to_row c)
     = Ok (String.append (Car.name c)
             (String.append "(" (String.append (Brand.name b) ")"))))
  /\ (fetch db "brand" (V_Int (Car.brand_id c)) = None ->
      Car.__str__ ext db (to_row c) = Raise (DoesNotExist "brand")).
Proof.
  destruct c. split.
  - intros b Hb. destruct b.
    unfold Car.__str__, getattr, getattr_of, and_then.
    cbn [to_row Car.Car_Model Car.to_row_ row_columns column String.eqb Ascii.eqb
         Bool.eqb Car.foreign_keys find fk_field fk_to attname String.append
         local_models existsb orb Car.brand_id Car.name] in *.
    rewrite Hb. reflexivity.
  - intros Hb.
    unfold Car.__str__, getattr, getattr_of, and_then.
    cbn [to_row Car.Car_Model Car.to_row_ row_columns column String.eqb Ascii.eqb
         Bool.eqb Car.foreign_keys find fk_field fk_to attname String.append
         local_models existsb orb Car.brand_id Car.name] in *.
    rewrite Hb. reflexivity.
Qed.

Lemma Car_str_witness :
  fetch Sample.database "brand" (V_Int (Car.brand_id Sample.car))
  = Some (to_row Sample.brand)
  /\ Car.__str__ Sample.externals Sample.database (to_row Sample.car)
     = Ok "Uno(Fiat)"
  /\ fetch [] "brand" (V_Int (Car.brand_id Sample.car)) = None
  /\ Car.__str__ Sample.externals [] (to_row Sample.car)
     = Raise (DoesNotExist "brand").
Proof.
  split; [reflexivity|].
  split; [exact (proj1 (Car_str Sample.externals Sample.database Sample.car)
                   Sample.brand eq_refl)|].
  split; [reflexivity|].
  exact (proj2 (Car_str Sample.externals [] Sample.car) eq_refl).
Defined.

Ltac run_str :=
  unfold Rental.__str__, Review.__str__, Booking.__str__, Payment.__str__,
    getattr, getattr_of, and_then, format;
  cbn [to_row Rental.Rental_Model Review.Review_Model Booking.Booking_Model
       Payment.Payment_Model Rental.to_row_ Review.to_row_ Booking.to_row_
       Payment.to_row_ row_columns row_pk column String.eqb Ascii.eqb Bool.eqb
       Rental.foreign_keys Review.foreign_keys Booking.foreign_keys
       Payment.foreign_keys find fk_field fk_to attname String.append
       local_models existsb orb Rental.owner_id Rental.car_id] in *.

(** X13. [Rental.__str__] is the owner, [" - "] and the car. The owner is
    converted first: an error of that conversion is the error of the
    method, whatever the car; then a car that is not in the database raises
    [DoesNotExist]. *)
Theorem Rental_str (ext : Externals) (db : Database) (x : Rental.t) :
  (forall e,
     foreign_str ext "profileuser" (V_Int (Rental.owner_id x)) = Raise e ->
     Rental.__str__ ext db (to_row x) = Raise e)
  /\ (forall s1,
        foreign_str ext "profileuser" (V_Int (Rental.owner_id x)) = Ok s1 ->
        (fetch db "car" (V_Int (Rental.car_id x)) = None ->
         Rental.__str__ ext db (to_row x) = Raise (DoesNotExist "car"))
        /\ (forall car s2,
              fetch db "car" (V_Int (Rental.car_id x)) = Some car ->
              Car.__str__ ext db car = Ok s2 ->
              Rental.__str__ ext db (to_row x)
              = Ok (String.append s1 (String.append " - " s2)))).
Proof.
  destruct x. cbn [Rental.owner_id Rental.car_id]. split.
  - intros e He. run_str. rewrite He. reflexivity.
  - intros s1 Hs1. split.
    + intros Hcar. run_str. rewrite Hs1, Hcar. reflexivity.
    + intros car s2 Hcar Hs2. run_str. rewrite Hs1, Hcar, Hs2. reflexivity.
Qed.

Lemma Rental_str_witness :
  foreign_str Sample.externals "profileuser" (V_Int (Rental.owner_id Sample.rental))
  = Ok "profileuser#"
  /\ fetch Sample.database "car" (V_Int (Rental.car_id Sample.rental))
     = Some (to_row Sample.car)
  /\ Car.__str__ Sample.externals Sample.database (to_row Sample.car) = Ok "Uno(Fiat)"
  /\ Rental.__str__ Sample.externals Sample.database (to_row Sample.rental)
     = Ok "profileuser# - Uno(Fiat)"
  /\ Rental.__str__ Sample.externals [] (to_row Sample.rental)
     = Raise (DoesNotExist "car").
Proof.
  assert (Hcar : Car.__str__ Sample.externals Sample.database (to_row Sample.car)
                 = Ok "Uno(Fiat)") by (vm_compute; reflexivity).
  destruct (proj2 (Rental_str Sample.externals Sample.database Sample.rental)
              "profileuser#" eq_refl) as [_ Hok].
  destruct (proj2 (Rental_str Sample.externals [] Sample.rental)
              "profileuser#" eq_refl) as [Hmissing _].
  split; [reflexivity|]. split; [reflexivity|]. split; [exact Hcar|].
  split; [exact (Hok (to_row Sample.car) "Uno(Fiat)" eq_refl Hcar)|].
  exact (Hmissing eq_refl).
Defined.

(** X14. [Review.__str__] and [Booking.__str__] read the fields their
    classes declare: they succeed whenever the user and the rental they
    refer to convert, with the user, then the rental in brackets; a Booking
    puts its [id] in front, which reads [None] before the first save. *)
Theorem Review_and_Booking_str (ext : Externals) (db : Database) (r : Row)
    (s1 s2 : string) :
  fetch db "rental" (row_pk r) = Some r ->
  Rental.__str__ ext db r = Ok s2 ->
  (forall x : Review.t,
     V_Int (Review.rental_id x) = row_pk r ->
     foreign_str ext "profileuser" (V_Int (Review.reviewer_id x)) = Ok s1 ->
     Review.__str__ ext db (to_row x)
     = Ok (String.append s1 (String.append " [" (String.append s2 "]"))))
  /\ (forall x : Booking.t,
        V_Int (Booking.rental_id x) = row_pk r ->
        foreign_str ext "profileuser" (V_Int (Booking.renter_id x)) = Ok s1 ->
        Booking.__str__ ext db (to_row x)
        = Ok (String.append
                (str_value ext (option_value V_Int (Booking.id x)))
                (String.append " ["
                   (String.append s1
                      (String.append " - " (String.append s2 "]")))))).
Proof.
  intros Hfetch Hstr. split.
  - intros x Hkey Huser. destruct x. cbn [Review.rental_id Review.reviewer_id] in *.
    unfold Review.__str__, getattr, getattr_of, and_then, format.
    cbn [to_row Review.Review_Model Review.to_row_ row_columns column String.eqb
         Ascii.eqb Bool.eqb Review.foreign_keys find fk_field fk_to attname
         String.append local_models existsb orb Review.rental_id Review.reviewer_id].
    rewrite Huser, Hkey, Hfetch, Hstr. reflexivity.
  - intros x Hkey Huser. destruct x. cbn [Booking.rental_id Booking.renter_id] in *.
    unfold Booking.__str__, getattr, getattr_of, and_then, format.
    cbn [to_row Booking.Booking_Model Booking.to_row_ row_columns column String.eqb
         Ascii.eqb Bool.eqb Booking.foreign_keys find fk_field fk_to attname
         String.append local_models existsb orb Booking.id Booking.rental_id
         Booking.renter_id].
    rewrite Huser, Hkey, Hfetch, Hstr. reflexivity.
Qed.

Lemma Review_and_Booking_str_witness :
  fetch Sample.database "rental" (row_pk (to_row Sample.rental))
  = Some (to_row Sample.rental)
  /\ Rental.__str__ Sample.externals Sample.database (to_row Sample.rental)
     = Ok "profileuser# - Uno(Fiat)"
  /\ Review.__str__ Sample.externals Sample.database (to_row Sample.review)
     = Ok "profileuser# [profileuser# - Uno(Fiat)]"
  /\ Booking.__str__ Sample.externals Sample.database
       (to_row (Booking.mk None 12 3 21 0 0 0 None))
     = Ok "None [profileuser# - profileuser# - Uno(Fiat)]".
Proof.
  assert (Hrental : Rental.__str__ Sample.externals Sample.database
                      (to_row Sample.rental)
                    = Ok "profileuser# - Uno(Fiat)") by (vm_compute; reflexivity).
  assert (Hfetch : fetch Sample.database "rental" (row_pk (to_row Sample.rental))
                   = Some (to_row Sample.rental)) by (vm_compute; reflexivity).
  destruct (Review_and_Booking_str Sample.externals Sample.database
              (to_row Sample.rental) "profileuser#" "profileuser# - Uno(Fiat)"
              Hfetch Hrental) as [Hreview Hbooking].
  split; [exact Hfetch|]. split; [exact Hrental|].
  split; [exact (Hreview Sample.review eq_refl eq_refl)|].
  exact (Hbooking (Booking.mk None 12 3 21 0 0 0 None) eq_refl eq_refl).
Defined.

(** X15. [Payment.__str__] reads no other record: for every payment and
    every database it returns ["Payment HASH: "] followed by the hash, and
    for a payment that received its hash from a save that is a string of 78
    characters. *)
Theorem Payment_str (ext : Externals) (db : Database) (p : Payment.t) (w : World) :
  Payment.__str__ ext db (to_row p)
  = Ok (String.append "Payment HASH: " (Payment.payment_hash p))
  /\ (Payment.payment_hash p = "" ->
      exists s,
        Payment.__str__ ext db (to_row (fst (Payment.save p w))) = Ok s
        /\ String.length s = 78%nat).
Proof.
  assert (Hstr : forall q : Payment.t,
            Payment.__str__ ext db (to_row q)
            = Ok (String.append "Payment HASH: " (Payment.payment_hash q))).
  { intros q. destruct q. reflexivity. }
  split; [apply Hstr|].
  intros Hempty. eexists. split; [apply Hstr|].
  destruct (Payment_save_hash p w) as [Hnew _].
  destruct (Hnew Hempty) as [-> _].
  cbn [String.append String.length]. rewrite hexdigest_length. reflexivity.
Qed.

Lemma Payment_str_witness :
  Payment.payment_hash Sample.payment = ""
  /\ exists s,
       Payment.__str__ Sample.externals []
         (to_row (fst (Payment.save Sample.payment Sample.world))) = Ok s
       /\ String.length s = 78%nat.
Proof.
  split; [reflexivity|].
  exact (proj2 (Payment_str Sample.externals [] Sample.payment Sample.world) eq_refl).
Defined.

(** ** The migration: when it applies, and applying it again *)

Module MigrationRuns.
Import migrations.

Lemma replace_same {A} (key : string) (f : A -> option A) (l : list (string * A))
    (v : A) :
  get key l = Some v -> f v = Some v -> replace key f l = Some l.
Proof.
  induction l as [|[k v0] l IH]; simpl.
  - discriminate.
  - destruct (String.eqb k key).
    + intros [= ->] ->. reflexivity.
    + intros Hget Hf. rewrite (IH Hget Hf). reflexivity.
Qed.

(** Altering a field to the definition it has changes nothing. *)
Lemma AlterField_same (model_name name : string) (field : Field) (st : ProjectState) :
  get_field st model_name name = Some field ->
  state_forwards (AlterField model_name name field) st = Some st.
Proof.
  unfold get_field, state_forwards. intros Hget.
  destruct (get model_name st) as [fields|] eqn:Hm; [|discriminate].
  apply (replace_same _ _ _ fields Hm).
  apply (replace_same _ _ _ field Hget). reflexivity.
Qed.

Lemma replace_commute {A} (k1 k2 : string) (f1 f2 : A -> option A)
    (l : list (string * A)) :
  k1 <> k2 ->
  match replace k1 f1 l with
  | Some l1 => replace k2 f2 l1
  | None => None
  end
  = match replace k2 f2 l with
    | Some l2 => replace k1 f1 l2
    | None => None
    end.
Proof.
  intros Hne. induction l as [|[k v] l IH]; simpl.
  - reflexivity.
  - destruct (String.eqb k k1) eqn:H1; destruct (String.eqb k k2) eqn:H2.
    + apply String.eqb_eq in H1. apply String.eqb_eq in H2. congruence.
    + destruct (f1 v) as [v1|] eqn:Hf1; destruct (replace k2 f2 l) as [l2|] eqn:Hr2;
        simpl; rewrite ?H1, ?H2, ?Hr2, ?Hf1; reflexivity.
    + destruct (f2 v) as [v2|] eqn:Hf2; destruct (replace k1 f1 l) as [l1|] eqn:Hr1;
        simpl; rewrite ?H1, ?H2, ?Hr1, ?Hf2; reflexivity.
    + destruct (replace k1 f1 l) as [l1|] eqn:Hr1;
        destruct (replace k2 f2 l) as [l2|] eqn:Hr2;
        simpl; rewrite ?H1, ?H2; simpl in IH.
      * rewrite IH. reflexivity.
      * rewrite IH. reflexivity.
      * rewrite <- IH. reflexivity.
      * reflexivity.
Qed.

End MigrationRuns.

Lemma apply_two (op1 op2 : migrations.Operation) (st : migrations.ProjectState) :
  migrations.apply [op1; op2] st
  = match migrations.state_forwards op1 st with
    | Some st1 => migrations.state_forwards op2 st1
    | None => None
    end.
Proof.
  simpl. destruct (migrations.state_forwards op1 st) as [st1|]; [|reflexivity].
  destruct (migrations.state_forwards op2 st1); reflexivity.
Qed.

(** X17. Applying the migration a second time changes nothing: the schema
    it produces is a fixed point. *)
Theorem migration_idempotent (st st' : migrations.ProjectState) :
  migrations.apply Migration.operations st = Some st' ->
  migrations.apply Migration.operations st' = Some st'.
Proof.
  unfold Migration.operations. rewrite !apply_two.
  set (F := migrations.mkField "DateTimeField"
              [("default", migrations.callable "django.utils.timezone.now")]).
  intros Hrun.
  destruct (MigrationFacts.AlterField_spec "rental" "created_at" F st)
    as [Hfail1 Hok1].
  destruct (migrations.get_field st "rental" "created_at") as [f1|] eqn:H1;
    [|rewrite (Hfail1 eq_refl) in Hrun; discriminate].
  destruct (Hok1 ltac:(discriminate)) as (st1 & E1 & _ & Hset1 & Hother1).
  rewrite E1 in Hrun.
  destruct (MigrationFacts.AlterField_spec "review" "created_at" F st1)
    as [Hfail2 Hok2].
  destruct (migrations.get_field st1 "review" "created_at") as [f2|] eqn:H2;
    [|rewrite (Hfail2 eq_refl) in Hrun; discriminate].
  destruct (Hok2 ltac:(discriminate)) as (st2 & E2 & _ & Hset2 & Hother2).
  rewrite E2 in Hrun. injection Hrun as <-.
  rewrite (MigrationRuns.AlterField_same "rental" "created_at" F st2).
  - apply MigrationRuns.AlterField_same. exact Hset2.
  - rewrite Hother2; [exact Hset1 | discriminate].
Qed.

Lemma migration_idempotent_witness :
  exists st',
    migrations.apply Migration.operations Sample.state = Some st'
    /\ migrations.apply Migration.operations st' = Some st'.
Proof.
  eexists. split; [reflexivity|].
  apply (migration_idempotent Sample.state). reflexivity.
Defined.

(** X18. The two operations of the migration touch different models, so
    their order does not matter: applied in the other order they give the
    same schema, or are refused alike. *)
Theorem migration_order_irrelevant (st : migrations.ProjectState) :
  migrations.apply (rev Migration.operations) st
  = migrations.apply Migration.operations st.
Proof.
  unfold Migration.operations. cbn [rev app]. rewrite !apply_two.
  unfold migrations.state_forwards. symmetry.
  apply MigrationRuns.replace_commute. discriminate.
Qed.

(** ** Payment hashes, one after the other *)

(** X19. The hash a save generates fits the column it is stored in, which
    is declared with [max_length=100], and the row holds it in that
    column. *)
Theorem Payment_hash_fits_column (p : Payment.t) (w : World) :
  Payment.payment_hash p = "" ->
  (String.length (Payment.payment_hash (fst (Payment.save p w)))
   <= payment_hash_max_length)%nat
  /\ column Payment.primary_key (row_columns (to_row (fst (Payment.save p w))))
     = Some (V_Str (Payment.payment_hash (fst (Payment.save p w)))).
Proof.
  intros Hempty.
  destruct (Payment_save_hash p w) as [Hnew _].
  destruct (Hnew Hempty) as [Hhash _]. split.
  - rewrite Hhash, hexdigest_length. unfold payment_hash_max_length. lia.
  - destruct (fst (Payment.save p w)). reflexivity.
Qed.

Lemma Payment_hash_fits_column_witness :
  Payment.payment_hash Sample.payment = ""
  /\ (String.length
        (Payment.payment_hash (fst (Payment.save Sample.payment Sample.world)))
      <= payment_hash_max_length)%nat.
Proof.
  split; [reflexivity|].
  exact (proj1 (Payment_hash_fits_column Sample.payment Sample.world eq_refl)).
Defined.

Lemma Payment_save_world (p : Payment.t) (w : World) :
  entropy (snd (Payment.save p w)) = entropy w.
Proof.
  pose proof (save_spec (E_Payment p) w) as (_ & Hentropy & _).
  unfold save in Hentropy. unfold bind at 1 in Hentropy.
  destruct (Payment.save p w). exact Hentropy.
Qed.

(** X20. Two payments without a hash that are saved one after the other
    take their hashes from different bytes of entropy: the first from the
    16 bytes at [drawn], the second from the 16 bytes after them. *)
Theorem successive_Payments_draw_fresh_entropy (p1 p2 : Payment.t) (w : World) :
  Payment.payment_hash p1 = "" ->
  Payment.payment_hash p2 = "" ->
  let hash_of := fun start =>
    SHA256.hexdigest
      (uuid.bytes_
         (uuid.UUID (map (fun i => entropy w i mod 256) (seq start 16)) 4)) in
  Payment.payment_hash (fst (Payment.save p1 w)) = hash_of (drawn w)
  /\ Payment.payment_hash (fst (Payment.save p2 (snd (Payment.save p1 w))))
     = hash_of (drawn w + 16)%nat.
Proof.
  intros H1 H2. cbv zeta.
  destruct (Payment_save_hash p1 w) as [Hnew1 _].
  destruct (Hnew1 H1) as [Hhash1 Hdrawn1].
  destruct (Payment_save_hash p2 (snd (Payment.save p1 w))) as [Hnew2 _].
  destruct (Hnew2 H2) as [Hhash2 _].
  split.
  - rewrite Hhash1. reflexivity.
  - rewrite Hhash2, uuid4_reads_entropy, Hdrawn1, Payment_save_world. reflexivity.
Qed.

Lemma successive_Payments_draw_fresh_entropy_witness :
  Payment.payment_hash Sample.payment = ""
  /\ Payment.payment_hash (fst (Payment.save Sample.payment Sample.world))
     = SHA256.hexdigest
         (uuid.bytes_
            (uuid.UUID (map (fun i => entropy Sample.world i mod 256) (seq 0 16)) 4))
  /\ Payment.payment_hash
       (fst (Payment.save Sample.payment
               (snd (Payment.save Sample.payment Sample.world))))
     = SHA256.hexdigest
         (uuid.bytes_
            (uuid.UUID (map (fun i => entropy Sample.world i mod 256) (seq 16 16)) 4)).
Proof.
  split; [reflexivity|].
  exact (successive_Payments_draw_fresh_entropy Sample.payment Sample.payment
           Sample.world eq_refl eq_refl).
Defined.

(** ** The choices of the character columns *)

(** X21. The values stored for the choices of a column are pairwise
    different, so the column tells the choices apart, and each fits the
    [max_length=20] of the column: for the fuel type of a car, the rent
    type of a rental, and the type and the status of a payment. *)
Theorem choices_are_distinct_and_fit :
  (forall x y, Car.FuelTypes_value x = Car.FuelTypes_value y -> x = y)
  /\ (forall x, (String.length (Car.FuelTypes_value x) <= choices_max_length)%nat)
  /\ (forall x y, Rental.RentType_value x = Rental.RentType_value y -> x = y)
  /\ (forall x, (String.length (Rental.RentType_value x) <= choices_max_length)%nat)
  /\ (forall x y, Payment.Type_value x = Payment.Type_value y -> x = y)
  /\ (forall x, (String.length (Payment.Type_value x) <= choices_max_length)%nat)
  /\ (forall x y, Payment.Status_value x = Payment.Status_value y -> x = y)
  /\ (forall x, (String.length (Payment.Status_value x) <= choices_max_length)%nat).
Proof.
  unfold choices_max_length.
  repeat split;
    first [ intros x y; destruct x, y; intros H; first [reflexivity | discriminate H]
          | intros x; destruct x; cbn; lia ].
Qed.

(** ** The UUID behind a hash *)

Lemma int_from_bytes_app (bs : bytes) (x : Z) :
  int_from_bytes (bs ++ [x]) = int_from_bytes bs * 256 + x.
Proof. unfold int_from_bytes. rewrite fold_left_app. reflexivity. Qed.

Lemma int_from_bytes_range (bs : bytes) :
  Forall (fun x => 0 <= x < 256) bs ->
  0 <= int_from_bytes bs < 256 ^ Z.of_nat (List.length bs).
Proof.
  induction bs as [|x bs IH] using rev_ind; intros Hall.
  - cbn. lia.
  - apply Forall_app in Hall. destruct Hall as [Hbs Hx].
    inversion Hx as [|? ? Hx0 _]; subst.
    specialize (IH Hbs).
    rewrite int_from_bytes_app, length_app. cbn [List.length].
    replace (Z.of_nat (List.length bs + 1)) with (Z.of_nat (List.length bs) + 1) by lia.
    rewrite Z.pow_add_r by lia. lia.
Qed.

(** [int.from_bytes] undoes [int.to_bytes], which keeps the [len] low bytes. *)
Lemma int_from_to_bytes (len : nat) (n : Z) :
  int_from_bytes (int_to_bytes len n) = n mod 256 ^ Z.of_nat len.
Proof.
  revert n. induction len as [|len IH]; intros n.
  - cbn. rewrite Z.mod_1_r. reflexivity.
  - cbn [int_to_bytes]. rewrite int_from_bytes_app, IH.
    replace (Z.of_nat (S len)) with (1 + Z.of_nat len) by lia.
    rewrite Z.pow_add_r by lia. change (256 ^ 1) with 256.
    assert (Hpos : 0 < 256 ^ Z.of_nat len) by (apply Z.pow_pos_nonneg; lia).
    rewrite (Z.rem_mul_r n 256 (256 ^ Z.of_nat len)) by lia. lia.
Qed.

Lemma testbit_above (a n m : Z) :
  0 <= a < 2 ^ n -> n <= m -> Z.testbit a m = false.
Proof.
  intros [Ha Hlt] Hm. destruct (Z.eq_dec a 0) as [-> | Hne].
  - apply Z.testbit_0_l.
  - apply Z.bits_above_log2; [exact Ha|].
    assert (Z.log2 a < n) by (apply Z.log2_lt_pow2; lia). lia.
Qed.

Lemma below_pow2 (a n : Z) :
  0 <= n -> 0 <= a -> (forall m, n <= m -> Z.testbit a m = false) -> a < 2 ^ n.
Proof.
  intros Hn Ha Hbits.
  assert (Hmod : a mod 2 ^ n = a).
  { apply Z.bits_inj'. intros m Hm. destruct (Z_lt_le_dec m n) as [Hlt | Hge].
    - apply Z.mod_pow2_bits_low. exact Hlt.
    - rewrite Z.mod_pow2_bits_high by lia. symmetry. apply Hbits. exact Hge. }
  rewrite <- Hmod. apply Z.mod_pos_bound. apply Z.pow_pos_nonneg; lia.
Qed.

Lemma UUID_testbit (bs : bytes) (m : Z) :
  0 <= m ->
  Z.testbit (uuid.UUID bs 4) m
  = (((Z.testbit (int_from_bytes bs) m
       && negb (Z.testbit (Z.shiftl 0xc000 48) m)
       || Z.testbit (Z.shiftl 0x8000 48) m)
      && negb (Z.testbit (Z.shiftl 0xf000 64) m))
     || Z.testbit (Z.shiftl 4 76) m)%bool.
Proof.
  intros Hm. unfold uuid.UUID. cbv zeta.
  rewrite Z.lor_spec, Z.land_spec, Z.lor_spec, Z.land_spec.
  rewrite !Z.lnot_spec by exact Hm. reflexivity.
Qed.

Lemma UUID_fixed_bits (bs : bytes) :
  Z.testbit (uuid.UUID bs 4) 79 = false
  /\ Z.testbit (uuid.UUID bs 4) 78 = true
  /\ Z.testbit (uuid.UUID bs 4) 77 = false
  /\ Z.testbit (uuid.UUID bs 4) 76 = false
  /\ Z.testbit (uuid.UUID bs 4) 63 = true
  /\ Z.testbit (uuid.UUID bs 4) 62 = false.
Proof.
  assert (HA : forall m, In m [79; 78; 77; 76; 63; 62] ->
            Z.testbit (Z.shiftl 0xc000 48) m = (if m <? 64 then true else false)
            /\ Z.testbit (Z.shiftl 0x8000 48) m = (m =? 63)
            /\ Z.testbit (Z.shiftl 0xf000 64) m = (if m <? 64 then false else true)
            /\ Z.testbit (Z.shiftl 4 76) m = (m =? 78)).
  { intros m Hm. cbn [In] in Hm.
    repeat (destruct Hm as [<- | Hm]; [vm_compute; repeat split; reflexivity|]).
    contradiction. }
  repeat split;
    (rewrite UUID_testbit by lia;
     match goal with
     | |- context [Z.testbit (int_from_bytes bs) ?m] =>
         let H := fresh in
         assert (H : In m [79; 78; 77; 76; 63; 62]) by (cbn [In]; tauto);
         destruct (HA m H) as (-> & -> & -> & ->)
     end;
     cbn [Z.ltb Z.eqb Z.compare Pos.compare Pos.compare_cont Pos.eqb];
     destruct (Z.testbit (int_from_bytes bs) _); reflexivity).
Qed.

Lemma urandom_range (w : World) (n : nat) :
  0 <= int_from_bytes (fst (os_urandom n w)) < 256 ^ Z.of_nat n.
Proof.
  unfold os_urandom. cbn [fst].
  set (bs := map (fun i => entropy w i mod 256) (seq (drawn w) n)).
  assert (Hall : Forall (fun x => 0 <= x < 256) bs).
  { apply Forall_forall. intros x Hx. apply in_map_iff in Hx.
    destruct Hx as [i [<- _]]. apply Z.mod_pos_bound. lia. }
  pose proof (int_from_bytes_range bs Hall) as Hr.
  assert (Hlen : List.length bs = n) by (unfold bs; rewrite length_map, length_seq; reflexivity).
  rewrite Hlen in Hr. exact Hr.
Qed.

Lemma pow_256_16 : 256 ^ Z.of_nat 16 = 2 ^ 128.
Proof. vm_compute. reflexivity. Qed.

Lemma UUID_range (bs : bytes) :
  0 <= int_from_bytes bs < 2 ^ 128 -> 0 <= uuid.UUID bs 4 < 2 ^ 128.
Proof.
  intros Hbs.
  assert (HB : 0 <= Z.shiftl 0x8000 48 < 2 ^ 128)
    by (vm_compute; split; [discriminate | reflexivity]).
  assert (HD : 0 <= Z.shiftl 4 76 < 2 ^ 128)
    by (vm_compute; split; [discriminate | reflexivity]).
  assert (Hnn : 0 <= uuid.UUID bs 4).
  { unfold uuid.UUID. cbv zeta.
    apply Z.lor_nonneg. split; [|apply HD].
    apply Z.land_nonneg. left.
    apply Z.lor_nonneg. split; [|apply HB].
    apply Z.land_nonneg. left. apply Hbs. }
  split; [exact Hnn|].
  apply below_pow2; [lia | exact Hnn|].
  intros m Hm. rewrite UUID_testbit by lia.
  rewrite (testbit_above (int_from_bytes bs) 128 m Hbs Hm).
  rewrite (testbit_above (Z.shiftl 0x8000 48) 128 m HB Hm).
  rewrite (testbit_above (Z.shiftl 4 76) 128 m HD Hm).
  reflexivity.
Qed.

(** X22. The UUID whose bytes are hashed is a version 4 UUID of the RFC
    4122 variant, whatever the entropy: bits 79 to 76 are 0100 and bits 63
    and 62 are 10. It is below [2 ^ 128], so its [bytes] are 16 bytes that
    give the UUID back. *)
Theorem uuid4_is_version_4 (w : World) :
  let u := fst (uuid.uuid4 w) in
  0 <= u < 2 ^ 128
  /\ List.length (uuid.bytes_ u) = 16%nat
  /\ int_from_bytes (uuid.bytes_ u) = u
  /\ (Z.testbit u 79, Z.testbit u 78, Z.testbit u 77, Z.testbit u 76)
     = (false, true, false, false)
  /\ (Z.testbit u 63, Z.testbit u 62) = (true, false).
Proof.
  cbv zeta.
  assert (Hu4 : fst (uuid.uuid4 w) = uuid.UUID (fst (os_urandom 16 w)) 4)
    by reflexivity.
  rewrite Hu4.
  generalize (urandom_range w 16). rewrite pow_256_16.
  generalize (fst (os_urandom 16 w)). intros bs Hbs.
  pose proof (UUID_range bs Hbs) as Hu.
  destruct (UUID_fixed_bits bs) as (H79 & H78 & H77 & H76 & H63 & H62).
  split; [exact Hu|].
  split; [apply int_to_bytes_length|].
  split.
  - unfold uuid.bytes_. rewrite int_from_to_bytes, pow_256_16.
    apply Z.mod_small. exact Hu.
  - rewrite H79, H78, H77, H76, H63, H62. split; reflexivity.
Qed.

(** ** A save followed by a delete *)

Lemma filter_all {A} (f : A -> bool) (l : list A) :
  (forall x, In x l -> f x = true) -> filter f l = l.
Proof.
  induction l as [|a l IH]; intros Hall; simpl.
  - reflexivity.
  - rewrite (Hall a (or_introl eq_refl)), IH; [reflexivity|].
    intros x Hx. apply Hall. right. exact Hx.
Qed.

(** The first save of an instance without a key appends its row, under a
    key no row of its model has. *)
Lemma first_save_appends (e : Timestamped) (w : World) :
  row_pk (stored e) = V_None ->
  rows (snd (save e w)) = rows w ++ [stored (fst (save e w))]
  /\ existsb (is_row_of (fst (save e w))) (rows w) = false.
Proof.
  intros Hunset.
  destruct (save_pk e w) as (Hmodel & _ & Hnew & _).
  specialize (Hnew Hunset).
  pose proof (next_id_fresh (row_model (stored e)) w) as Hfresh.
  unfold next_id, bind, get_rows, ret in Hfresh. cbn [fst] in Hfresh.
  assert (Hex : existsb (is_row_of (fst (save e w))) (rows w) = false).
  { unfold is_row_of. rewrite Hmodel, Hnew. exact Hfresh. }
  split; [|exact Hex].
  destruct (save_cases e w) as [_ [[Hyes _] | [_ Hrows]]]; [congruence | exact Hrows].
Qed.

(** X23. After a new Review or a new Favorite is saved and then deleted, the
    rows of the database are those from before the save: the delete takes
    the row of the instance and no other. Only the rows are compared; the
    [id] the record was given is not handed back to the database. *)
Theorem save_then_delete_leaves_rows (e : Timestamped) (w : World) :
  In (row_model (stored e)) ["review"; "favorite"] ->
  row_pk (stored e) = V_None ->
  let e' := fst (save e w) in
  let w' := snd (save e w) in
  rows (snd (delete (stored e') w')) = rows w.
Proof.
  intros Hleaf Hunset. cbv zeta.
  destruct (first_save_appends e w Hunset) as [Hrows Hfresh].
  destruct (save_pk e w) as (Hmodel & _).
  assert (Hleaf' : In (row_model (stored (fst (save e w))))
                      ["review"; "favorite"; "booking_payments"]).
  { rewrite Hmodel. cbn [In] in *. tauto. }
  rewrite delete_rows, (doomed_leaf _ _ Hleaf'), Hrows, filter_app.
  cbn [filter existsb]. rewrite same_record_refl. cbn [orb negb].
  rewrite app_nil_r. apply filter_all. intros r Hr.
  rewrite orb_false_r. apply negb_true_iff.
  destruct (same_record r (stored (fst (save e w)))) eqn:Hsame; [|reflexivity].
  pose proof (existsb_false_forall _ _ _ Hfresh Hr) as Hno.
  unfold is_row_of in Hno. apply has_key_spec in Hsame. destruct Hsame as [Hm Hk].
  assert (Ht : has_key (row_model (stored (fst (save e w))))
                 (row_pk (stored (fst (save e w)))) r = true)
    by (apply has_key_spec; split; congruence).
  congruence.
Qed.

Lemma save_then_delete_leaves_rows_witness :
  let e := E_Review (Review.mk None 12 3 50 "Fine" 1700000000000000 None) in
  In (row_model (stored e)) ["review"; "favorite"]
  /\ row_pk (stored e) = V_None
  /\ rows (snd (delete (stored (fst (save e Sample.populated)))
                  (snd (save e Sample.populated))))
     = rows Sample.populated.
Proof.
  cbv zeta.
  assert (H1 : In (row_model
                     (stored (E_Review (Review.mk None 12 3 50 "Fine"
                                          1700000000000000 None))))
                  ["review"; "favorite"]) by (left; reflexivity).
  split; [exact H1|]. split; [reflexivity|].
  exact (save_then_delete_leaves_rows
           (E_Review (Review.mk None 12 3 50 "Fine" 1700000000000000 None))
           Sample.populated H1 eq_refl).
Defined.

(** ** Brand and Car *)




